(** * Filmstrip layout functions of react/features/uploadPPT/upload.js

    A shallow embedding of the pure functions of the second document of
    upload.js (the filmstrip [functions] module): the visibility rule
    [shouldRemoteVideosBeVisible], the playability test [isVideoPlayable],
    the three thumbnail size calculations,
    [getVerticalFilmstripVisibleAreaWidth] and [computeDisplayMode].

    Numbers.  A JavaScript number is modelled by [number]: an exact rational,
    one of the two infinities, or NaN.  The rounding of IEEE-754 doubles, the
    overflow of very large finite values and the sign of zero are not
    modelled: a finite number is an exact rational and there is one zero,
    which divides like +0. *)

From Stdlib Require Import ZArith QArith Qround Qabs Bool Lia Lqa.
From Stdlib Require Import String.

Local Open Scope Q_scope.

(** ** JavaScript numbers *)

Module JS.

Inductive number : Type :=
| Fin (q : Q)
| PInf
| NInf
| NaN.

Definition of_Z (z : Z) : number := Fin (inject_Z z).

Definition is_finite (a : number) : bool :=
  match a with Fin _ => true | _ => false end.

Definition is_NaN (a : number) : bool :=
  match a with NaN => true | _ => false end.

(** [a < b] on rationals, as a boolean. *)
Definition Qlt_bool (a b : Q) : bool := negb (Qle_bool b a).

(** Unary minus. *)
Definition neg (a : number) : number :=
  match a with
  | Fin q => Fin (- q)
  | PInf => NInf
  | NInf => PInf
  | NaN => NaN
  end.

(** [a + b]. *)
Definition add (a b : number) : number :=
  match a, b with
  | NaN, _ | _, NaN => NaN
  | Fin x, Fin y => Fin (x + y)
  | PInf, NInf | NInf, PInf => NaN
  | PInf, _ | _, PInf => PInf
  | NInf, _ | _, NInf => NInf
  end.

(** [a - b]. *)
Definition sub (a b : number) : number := add a (neg b).

(** An infinity multiplied by a finite factor [q]: NaN at zero, else the
    infinity with the sign of the product. *)
Definition scale_inf (positive : bool) (q : Q) : number :=
  match q ?= 0 with
  | Eq => NaN
  | Gt => if positive then PInf else NInf
  | Lt => if positive then NInf else PInf
  end.

(** [a * b]. *)
Definition mul (a b : number) : number :=
  match a, b with
  | NaN, _ | _, NaN => NaN
  | Fin x, Fin y => Fin (x * y)
  | PInf, Fin y => scale_inf true y
  | NInf, Fin y => scale_inf false y
  | Fin x, PInf => scale_inf true x
  | Fin x, NInf => scale_inf false x
  | PInf, PInf | NInf, NInf => PInf
  | PInf, NInf | NInf, PInf => NInf
  end.

(** [a / b].  A finite value over zero is an infinity of its sign and 0/0 is
    NaN; a finite value over an infinity is zero; an infinity over a finite
    value keeps or flips its sign with the sign of the divisor. *)
Definition div (a b : number) : number :=
  match a, b with
  | NaN, _ | _, NaN => NaN
  | Fin x, Fin y =>
      if Qeq_bool y 0
      then match x ?= 0 with Eq => NaN | Gt => PInf | Lt => NInf end
      else Fin (x / y)
  | Fin _, (PInf | NInf) => Fin 0
  | PInf, Fin y => if Qlt_bool y 0 then NInf else PInf
  | NInf, Fin y => if Qlt_bool y 0 then PInf else NInf
  | (PInf | NInf), (PInf | NInf) => NaN
  end.

(** [a < b]: false as soon as one side is NaN. *)
Definition lt (a b : number) : bool :=
  match a, b with
  | NaN, _ | _, NaN => false
  | Fin x, Fin y => Qlt_bool x y
  | NInf, (Fin _ | PInf) => true
  | Fin _, PInf => true
  | _, _ => false
  end.

(** [a > b]. *)
Definition gt (a b : number) : bool := lt b a.

(** [a <= b]: false as soon as one side is NaN. *)
Definition le (a b : number) : bool :=
  match a, b with
  | NaN, _ | _, NaN => false
  | Fin x, Fin y => Qle_bool x y
  | NInf, _ => true
  | _, PInf => true
  | _, _ => false
  end.

(** [Math.min(a, b)]. *)
Definition min (a b : number) : number :=
  match a, b with
  | NaN, _ | _, NaN => NaN
  | _, _ => if le a b then a else b
  end.

(** [Math.max(a, b)]. *)
Definition max (a b : number) : number :=
  match a, b with
  | NaN, _ | _, NaN => NaN
  | _, _ => if le a b then b else a
  end.

(** [Math.floor(a)]. *)
Definition floor (a : number) : number :=
  match a with
  | Fin q => of_Z (Qfloor q)
  | _ => a
  end.

(** [Math.abs(a)]. *)
Definition abs (a : number) : number :=
  match a with
  | Fin q => Fin (Qabs q)
  | PInf | NInf => PInf
  | NaN => NaN
  end.

(** Truthiness of a number: every number but zero and NaN. *)
Definition truthy (a : number) : bool :=
  match a with
  | Fin q => negb (Qeq_bool q 0)
  | PInf | NInf => true
  | NaN => false
  end.

(** A property that is either unset ([undefined]) or holds a number. *)
Definition property : Type := option number.

(** [ToNumber] on such a property: [undefined] converts to NaN. *)
Definition to_number (p : property) : number :=
  match p with
  | Some a => a
  | None => NaN
  end.

(** [p || d] for a property [p] and a number [d]. *)
Definition or_default (p : property) (d : number) : number :=
  match p with
  | Some a => if truthy a then a else d
  | None => d
  end.

End JS.

Import JS.

(** Case analysis on every number in sight, dropping the impossible cases. *)
Ltac number_cases :=
  repeat match goal with
         | a : number |- _ => destruct a
         end;
  cbn in *; try discriminate; try reflexivity.

(** ** Data of the module *)

(** The numeric constants imported from [./constants].  Their declarations
    are not part of the sources at hand, so every function below takes them
    as a parameter; each is a finite number literal. *)
Record Constants : Type := {
  ASPECT_RATIO_BREAKPOINT : Q;
  SCROLL_SIZE : Q;
  SQUARE_TILE_ASPECT_RATIO : Q;
  STAGE_VIEW_THUMBNAIL_HORIZONTAL_BORDER : Q;
  TILE_ASPECT_RATIO : Q;
  TILE_HORIZONTAL_MARGIN : Q;
  TILE_VERTICAL_MARGIN : Q;
  VERTICAL_FILMSTRIP_MIN_HORIZONTAL_MARGIN : Q
}.

(** Modelled from the spec: the five [DISPLAY_*] constants imported from
    [./constants], whose values are declared outside the sources at hand;
    the spec's [DisplayMode] enumeration of five distinct modes. *)
Inductive DisplayMode : Type :=
| DISPLAY_VIDEO
| DISPLAY_AVATAR
| DISPLAY_AVATAR_WITH_NAME
| DISPLAY_BLACKNESS_WITH_NAME
| DISPLAY_VIDEO_WITH_NAME.

(** The fields of the global [interfaceConfig] object that the module reads.
    Each may be unset. *)
Record InterfaceConfig : Type := {
  FILM_STRIP_MAX_HEIGHT : property;
  LOCAL_THUMBNAIL_RATIO : property;
  REMOTE_THUMBNAIL_RATIO : property
}.

(** [{height, width}]. *)
Record ThumbnailSize : Type := {
  height : number;
  width : number
}.

(** [{local: {height, width}, remote: {height, width}}]. *)
Record ThumbnailSizes : Type := {
  local : ThumbnailSize;
  remote : ThumbnailSize
}.

(** The argument object of [calculateThumbnailSizeForTileView]. *)
Record LayoutInput : Type := {
  columns : number;
  minVisibleRows : number;
  rows : number;
  clientWidth : number;
  clientHeight : number;
  disableResponsiveTiles : bool
}.

(** The argument object of [computeDisplayMode]; every field is read for its
    truthiness only. *)
Record DisplayModeInput : Type := {
  isAudioOnly : bool;
  isCurrentlyOnLargeVideo : bool;
  isScreenSharing : bool;
  canPlayEventReceived : bool;
  isHovered : bool;
  isRemoteParticipant : bool;
  tileViewActive : bool;
  isVideoPlayable : bool
}.

(** The value of [disable1On1Mode] in the configuration: unset, [null] or a
    boolean. *)
Inductive Flag : Type :=
| Undefined
| Null
| Boolean (b : bool).

Definition flag_truthy (f : Flag) : bool :=
  match f with
  | Boolean b => b
  | _ => false
  end.

(** [f !== null]. *)
Definition flag_not_null (f : Flag) : bool :=
  match f with
  | Null => false
  | _ => true
  end.

(** A participant, as far as [shouldRemoteVideosBeVisible] looks at it. *)
Record Participant : Type := {
  participant_local : bool
}.

(** The part of the redux state that [shouldRemoteVideosBeVisible] reads:
    two plain lookups in the state, the configuration flag, and the results of
    the selectors [getParticipantCountWithFake] and [getPinnedParticipant] of
    [../base/participants] on this state. *)
Record VisibilityContext : Type := {
  calleeInfoVisible : bool;
  participantCount : Z;
  disable1On1Mode : Flag;
  toolboxVisible : bool;
  pinnedParticipant : option Participant
}.

(** ** The functions *)

Section Filmstrip.

Context (K : Constants).

(** [shouldRemoteVideosBeVisible(state)]. *)
Definition shouldRemoteVideosBeVisible (state : VisibilityContext) : bool :=
  if calleeInfoVisible state then false
  else
    let participantCount := participantCount state in
    let disable1On1Mode := disable1On1Mode state in
    (2 <? participantCount)%Z
    || ((1 <? participantCount)%Z
        && flag_not_null disable1On1Mode
        && (toolboxVisible state
            || match pinnedParticipant state with
               | Some pinnedParticipant => participant_local pinnedParticipant
               | None => false
               end))
    || flag_truthy disable1On1Mode.

(** [interfaceConfig.FILM_STRIP_MAX_HEIGHT || 120]. *)
Definition filmStripMaxHeight (interfaceConfig : InterfaceConfig) : number :=
  or_default (FILM_STRIP_MAX_HEIGHT interfaceConfig) (of_Z 120).

(** [calculateThumbnailSizeForHorizontalView(clientHeight = 0)]; [None] is
    the omitted argument. *)
Definition calculateThumbnailSizeForHorizontalView
    (interfaceConfig : InterfaceConfig) (clientHeight : option number)
    : ThumbnailSizes :=
  let clientHeight :=
    match clientHeight with Some h => h | None => of_Z 0 end in
  let topBottomMargin := of_Z 15 in
  let availableHeight :=
    min clientHeight
        (add (or_default (FILM_STRIP_MAX_HEIGHT interfaceConfig) (of_Z 120))
             topBottomMargin) in
  let height := sub availableHeight topBottomMargin in
  {| local :=
       {| height := height;
          width :=
            floor (mul (to_number (LOCAL_THUMBNAIL_RATIO interfaceConfig))
                       height) |};
     remote :=
       {| height := height;
          width :=
            floor (mul (to_number (REMOTE_THUMBNAIL_RATIO interfaceConfig))
                       height) |} |}.

(** The sum of the four margin and border constants of the vertical
    filmstrip. *)
Definition horizontalMargin : number :=
  add (add (add (Fin (VERTICAL_FILMSTRIP_MIN_HORIZONTAL_MARGIN K))
                (Fin (SCROLL_SIZE K)))
           (Fin (TILE_HORIZONTAL_MARGIN K)))
      (Fin (STAGE_VIEW_THUMBNAIL_HORIZONTAL_BORDER K)).

(** [calculateThumbnailSizeForVerticalView(clientWidth = 0)]. *)
Definition calculateThumbnailSizeForVerticalView
    (interfaceConfig : InterfaceConfig) (clientWidth : option number)
    : ThumbnailSizes :=
  let clientWidth :=
    match clientWidth with Some w => w | None => of_Z 0 end in
  let horizontalMargin :=
    add (add (add (Fin (VERTICAL_FILMSTRIP_MIN_HORIZONTAL_MARGIN K))
                  (Fin (SCROLL_SIZE K)))
             (Fin (TILE_HORIZONTAL_MARGIN K)))
        (Fin (STAGE_VIEW_THUMBNAIL_HORIZONTAL_BORDER K)) in
  let availableWidth :=
    min (max (sub clientWidth horizontalMargin) (of_Z 0))
        (or_default (FILM_STRIP_MAX_HEIGHT interfaceConfig) (of_Z 120)) in
  {| local :=
       {| height :=
            floor (div availableWidth
                       (to_number (LOCAL_THUMBNAIL_RATIO interfaceConfig)));
          width := availableWidth |};
     remote :=
       {| height :=
            floor (div availableWidth
                       (to_number (REMOTE_THUMBNAIL_RATIO interfaceConfig)));
          width := availableWidth |} |}.

(** [calculateThumbnailSizeForTileView({columns, minVisibleRows, rows,
    clientWidth, clientHeight, disableResponsiveTiles})]. *)
Definition calculateThumbnailSizeForTileView (input : LayoutInput)
    : ThumbnailSize :=
  let columns := columns input in
  let minVisibleRows := minVisibleRows input in
  let rows := rows input in
  let clientWidth := clientWidth input in
  let clientHeight := clientHeight input in
  let aspectRatio :=
    if negb (disableResponsiveTiles input)
       && lt clientWidth (Fin (ASPECT_RATIO_BREAKPOINT K))
    then Fin (SQUARE_TILE_ASPECT_RATIO K)
    else Fin (TILE_ASPECT_RATIO K) in
  let viewWidth :=
    sub clientWidth (mul columns (Fin (TILE_HORIZONTAL_MARGIN K))) in
  let viewHeight :=
    sub clientHeight (mul minVisibleRows (Fin (TILE_VERTICAL_MARGIN K))) in
  let initialWidth := div viewWidth columns in
  let initialHeight := div viewHeight minVisibleRows in
  let aspectRatioHeight := div initialWidth aspectRatio in
  let noScrollHeight :=
    sub (div clientHeight rows) (Fin (TILE_VERTICAL_MARGIN K)) in
  let scrollInitialWidth :=
    div (sub viewWidth (Fin (SCROLL_SIZE K))) columns in
  let height := floor (min aspectRatioHeight initialHeight) in
  let width := floor (mul aspectRatio height) in
  if gt height noScrollHeight && gt width scrollInitialWidth then
    let scrollAspectRatioHeight := div scrollInitialWidth aspectRatio in
    let height :=
      floor (max (min scrollAspectRatioHeight initialHeight) noScrollHeight) in
    let width := floor (mul aspectRatio height) in
    {| height := height; width := width |}
  else
    {| height := height; width := width |}.

(** [getVerticalFilmstripVisibleAreaWidth()]; the argument is the value of
    [window.innerWidth] that the function reads. *)
Definition getVerticalFilmstripVisibleAreaWidth
    (interfaceConfig : InterfaceConfig) (innerWidth : number) : number :=
  let filmstripMaxWidth :=
    add (or_default (FILM_STRIP_MAX_HEIGHT interfaceConfig) (of_Z 120))
        (of_Z 18) in
  min filmstripMaxWidth innerWidth.

(** [computeDisplayMode(input)]. *)
Definition computeDisplayMode (input : DisplayModeInput) : DisplayMode :=
  let adjustedIsVideoPlayable :=
    isVideoPlayable input
    && (negb (isRemoteParticipant input) || canPlayEventReceived input) in
  if negb (tileViewActive input) && isScreenSharing input
     && isRemoteParticipant input
  then if isHovered input then DISPLAY_AVATAR_WITH_NAME else DISPLAY_AVATAR
  else if isCurrentlyOnLargeVideo input && negb (tileViewActive input)
  then if adjustedIsVideoPlayable && negb (isAudioOnly input)
       then DISPLAY_BLACKNESS_WITH_NAME
       else DISPLAY_AVATAR_WITH_NAME
  else if adjustedIsVideoPlayable && negb (isAudioOnly input)
  then if isHovered input then DISPLAY_VIDEO_WITH_NAME else DISPLAY_VIDEO
  else if isHovered input then DISPLAY_AVATAR_WITH_NAME else DISPLAY_AVATAR.

End Filmstrip.

(** ** Named intermediate values of the tile view calculation *)

Section TileValues.

Context (K : Constants) (input : LayoutInput).

(** [aspectRatio] after the responsive-tiles test. *)
Definition tile_aspectRatio : number :=
  if negb (disableResponsiveTiles input)
     && lt (clientWidth input) (Fin (ASPECT_RATIO_BREAKPOINT K))
  then Fin (SQUARE_TILE_ASPECT_RATIO K)
  else Fin (TILE_ASPECT_RATIO K).

Definition tile_viewWidth : number :=
  sub (clientWidth input)
      (mul (columns input) (Fin (TILE_HORIZONTAL_MARGIN K))).

Definition tile_viewHeight : number :=
  sub (clientHeight input)
      (mul (minVisibleRows input) (Fin (TILE_VERTICAL_MARGIN K))).

Definition tile_initialWidth : number := div tile_viewWidth (columns input).

Definition tile_initialHeight : number :=
  div tile_viewHeight (minVisibleRows input).

Definition tile_aspectRatioHeight : number :=
  div tile_initialWidth tile_aspectRatio.

Definition tile_noScrollHeight : number :=
  sub (div (clientHeight input) (rows input)) (Fin (TILE_VERTICAL_MARGIN K)).

Definition tile_scrollInitialWidth : number :=
  div (sub tile_viewWidth (Fin (SCROLL_SIZE K))) (columns input).

(** [height] and [width] as first computed, before the test for a scroll. *)
Definition tile_height0 : number :=
  floor (min tile_aspectRatioHeight tile_initialHeight).

Definition tile_width0 : number := floor (mul tile_aspectRatio tile_height0).

(** [height] and [width] as recomputed inside the [if]. *)
Definition tile_scrollHeight : number :=
  floor (max (min (div tile_scrollInitialWidth tile_aspectRatio)
                  tile_initialHeight)
             tile_noScrollHeight).

Definition tile_scrollWidth : number :=
  floor (mul tile_aspectRatio tile_scrollHeight).

End TileValues.

(** A finite number greater than zero. *)
Definition positive_finite (a : number) : bool :=
  match a with
  | Fin q => Qlt_bool 0 q
  | _ => false
  end.

(** [interfaceConfig] with [FILM_STRIP_MAX_HEIGHT] replaced. *)
Definition with_max_height (p : property) (c : InterfaceConfig)
    : InterfaceConfig :=
  {| FILM_STRIP_MAX_HEIGHT := p;
     LOCAL_THUMBNAIL_RATIO := LOCAL_THUMBNAIL_RATIO c;
     REMOTE_THUMBNAIL_RATIO := REMOTE_THUMBNAIL_RATIO c |}.

(** [interfaceConfig] with both thumbnail ratios replaced. *)
Definition with_ratios (l r : property) (c : InterfaceConfig)
    : InterfaceConfig :=
  {| FILM_STRIP_MAX_HEIGHT := FILM_STRIP_MAX_HEIGHT c;
     LOCAL_THUMBNAIL_RATIO := l;
     REMOTE_THUMBNAIL_RATIO := r |}.

(** ** Sample data used to instantiate the statements *)

(** One possible content of [./constants]: 16:9 tiles, square tiles below a
    500 pixel wide window, a 7 pixel scrollbar. *)
Definition sample_constants : Constants :=
  {| ASPECT_RATIO_BREAKPOINT := 500;
     SCROLL_SIZE := 7;
     SQUARE_TILE_ASPECT_RATIO := 1;
     STAGE_VIEW_THUMBNAIL_HORIZONTAL_BORDER := 4;
     TILE_ASPECT_RATIO := 16 # 9;
     TILE_HORIZONTAL_MARGIN := 4;
     TILE_VERTICAL_MARGIN := 4;
     VERTICAL_FILMSTRIP_MIN_HORIZONTAL_MARGIN := 10 |}.

(** A configuration with every field set. *)
Definition sample_config : InterfaceConfig :=
  {| FILM_STRIP_MAX_HEIGHT := Some (of_Z 120);
     LOCAL_THUMBNAIL_RATIO := Some (Fin (16 # 9));
     REMOTE_THUMBNAIL_RATIO := Some (of_Z 1) |}.

(** Three participants while the callee info overlay is shown. *)
Definition ctx_three_calling : VisibilityContext :=
  {| calleeInfoVisible := true;
     participantCount := 3;
     disable1On1Mode := Boolean true;
     toolboxVisible := true;
     pinnedParticipant := Some {| participant_local := true |} |}.

(** Three participants, no overlay and nothing else in favour of the strip. *)
Definition ctx_three_plain : VisibilityContext :=
  {| calleeInfoVisible := false;
     participantCount := 3;
     disable1On1Mode := Null;
     toolboxVisible := false;
     pinnedParticipant := None |}.

(** A remote screen share in stage view, playable and on the large video. *)
Definition dm_remote_share : DisplayModeInput :=
  {| isAudioOnly := false;
     isCurrentlyOnLargeVideo := true;
     isScreenSharing := true;
     canPlayEventReceived := true;
     isHovered := false;
     isRemoteParticipant := true;
     tileViewActive := false;
     isVideoPlayable := true |}.

(** A remote tile whose video is playable but has not fired [canplay]. *)
Definition dm_remote_waiting : DisplayModeInput :=
  {| isAudioOnly := false;
     isCurrentlyOnLargeVideo := false;
     isScreenSharing := false;
     canPlayEventReceived := false;
     isHovered := true;
     isRemoteParticipant := true;
     tileViewActive := true;
     isVideoPlayable := true |}.

(** A 3 x 2 grid in a 900 x 600 window, every row visible: the tiles are
    wider than the room a scrollbar leaves, but not higher than a row. *)
Definition layout_no_scroll : LayoutInput :=
  {| columns := of_Z 3;
     minVisibleRows := of_Z 2;
     rows := of_Z 2;
     clientWidth := of_Z 900;
     clientHeight := of_Z 600;
     disableResponsiveTiles := true |}.

(** The same window with four rows of which two are visible: the grid
    scrolls. *)
Definition layout_scroll : LayoutInput :=
  {| columns := of_Z 3;
     minVisibleRows := of_Z 2;
     rows := of_Z 4;
     clientWidth := of_Z 900;
     clientHeight := of_Z 600;
     disableResponsiveTiles := true |}.

(** The sample configuration with both thumbnail ratios left unset, and with
    both set to 120. *)
Definition config_ratios_unset : InterfaceConfig :=
  with_ratios None None sample_config.

Definition config_ratios_120 : InterfaceConfig :=
  with_ratios (Some (of_Z 120)) (Some (of_Z 120)) sample_config.

(** ** Playability of a participant's video *)

Module Playable.

(** A participant of [../base/participants], as far as [isVideoPlayable]
    looks at it.  [local] is [None] when the property is [undefined] or
    [null], and holds its truthiness otherwise; [connectionStatus] is [None]
    when unset; [isFakeParticipant] is read for its truthiness. *)
Record Participant : Type := {
  local : option bool;
  connectionStatus : option string;
  isFakeParticipant : bool
}.

(** What [isVideoPlayable] takes from other modules: the redux state with
    the two lookups made in it, the selectors of [../base/participants] and
    [../base/tracks/functions], and the constants [MEDIA_TYPE.VIDEO] and
    [JitsiParticipantConnectionStatus.ACTIVE].  None of them is part of the
    sources at hand, so they are parameters.  A participant id is [None] when
    the argument is [undefined]. *)
Record Collaborators : Type := {
  State : Type;
  Tracks : Type;
  Track : Type;
  MediaType : Type;
  MEDIA_TYPE_VIDEO : MediaType;
  ACTIVE : string;
  features_base_tracks : State -> Tracks;
  features_base_audio_only_enabled : State -> bool;
  getParticipantById : State -> option string -> option Participant;
  getLocalParticipant : State -> option Participant;
  getLocalVideoTrack : Tracks -> option Track;
  getTrackByMediaTypeAndParticipant :
    Tracks -> MediaType -> option string -> option Track;
  isLocalTrackMuted : Tracks -> MediaType -> bool;
  isRemoteTrackMuted : Tracks -> MediaType -> option string -> bool
}.

(** Truthiness of an id: a string that is not empty. *)
Definition id_truthy (id : option string) : bool :=
  match id with
  | Some s => negb (String.eqb s EmptyString)
  | None => false
  end.

(** [Boolean(x)] for a value that is an object or [undefined]. *)
Definition defined {A : Type} (x : option A) : bool :=
  match x with
  | Some _ => true
  | None => false
  end.

(** [status === ACTIVE]. *)
Definition status_is (active : string) (status : option string) : bool :=
  match status with
  | Some s => String.eqb s active
  | None => false
  end.

(** [participant?.local ?? true]. *)
Definition local_or_true (participant : option Participant) : bool :=
  match participant with
  | Some p => match local p with Some b => b | None => true end
  | None => true
  end.

(** [isVideoPlayable(stateful, id)], on a state already resolved by
    [toState]. *)
Definition isVideoPlayable (B : Collaborators) (stateful : State B)
    (id : option string) : bool :=
  let state := stateful in
  let tracks := features_base_tracks B state in
  let participant :=
    if id_truthy id then getParticipantById B state id
    else getLocalParticipant B state in
  let isLocal := local_or_true participant in
  let connectionStatus :=
    match participant with
    | Some p => connectionStatus p
    | None => None
    end in
  let videoTrack :=
    if isLocal then getLocalVideoTrack B tracks
    else getTrackByMediaTypeAndParticipant B tracks (MEDIA_TYPE_VIDEO B) id in
  let isAudioOnly := features_base_audio_only_enabled B state in
  if isLocal then
    let isVideoMuted := isLocalTrackMuted B tracks (MEDIA_TYPE_VIDEO B) in
    defined videoTrack && negb isVideoMuted && negb isAudioOnly
  else if negb (match participant with
                | Some p => isFakeParticipant p
                | None => false
                end)
  then
    let isVideoMuted :=
      isRemoteTrackMuted B tracks (MEDIA_TYPE_VIDEO B) id in
    defined videoTrack && negb isVideoMuted && negb isAudioOnly
    && status_is (ACTIVE B) connectionStatus
  else false.

(** A toy conference for the examples: the state is the audio-only switch,
    the participant ["ann"] is remote with an active connection, ["video"]
    is a shared-video placeholder, ["guest"] is an entry without a [local]
    property, every other id is unknown, and every video track exists and is
    unmuted. *)
Definition sample_collaborators : Collaborators :=
  {| State := bool;
     Tracks := unit;
     Track := unit;
     MediaType := unit;
     MEDIA_TYPE_VIDEO := tt;
     ACTIVE := "active"%string;
     features_base_tracks := fun _ => tt;
     features_base_audio_only_enabled := fun audioOnly => audioOnly;
     getParticipantById :=
       fun _ id =>
         match id with
         | Some s =>
             if String.eqb s "ann"%string
             then Some {| local := Some false;
                          connectionStatus := Some "active"%string;
                          isFakeParticipant := false |}
             else if String.eqb s "video"%string
             then Some {| local := Some false;
                          connectionStatus := None;
                          isFakeParticipant := true |}
             else if String.eqb s "guest"%string
             then Some {| local := None;
                          connectionStatus := None;
                          isFakeParticipant := true |}
             else None
         | None => None
         end;
     getLocalParticipant :=
       fun _ => Some {| local := Some true;
                        connectionStatus := None;
                        isFakeParticipant := false |};
     getLocalVideoTrack := fun _ => Some tt;
     getTrackByMediaTypeAndParticipant := fun _ _ _ => Some tt;
     isLocalTrackMuted := fun _ _ => false;
     isRemoteTrackMuted := fun _ _ _ => false |}.

End Playable.

(** ** Comparisons used in the statements *)


(** The display modes that show the participant's name. *)
Definition shows_name (m : DisplayMode) : bool :=
  match m with
  | DISPLAY_AVATAR_WITH_NAME
  | DISPLAY_BLACKNESS_WITH_NAME
  | DISPLAY_VIDEO_WITH_NAME => true
  | DISPLAY_VIDEO | DISPLAY_AVATAR => false
  end.

(** The display modes that show the avatar. *)
Definition shows_avatar (m : DisplayMode) : bool :=
  match m with
  | DISPLAY_AVATAR | DISPLAY_AVATAR_WITH_NAME => true
  | _ => false
  end.

(** ** Visibility of the remote thumbnails *)

(** The three disjuncts of the returned expression, once the callee info
    overlay is out of the way. *)
Lemma shouldRemoteVideosBeVisible_no_overlay (state : VisibilityContext) :
  calleeInfoVisible state = false ->
  shouldRemoteVideosBeVisible state
  = ((2 <? participantCount state)%Z
     || ((1 <? participantCount state)%Z
         && flag_not_null (disable1On1Mode state)
         && (toolboxVisible state
             || match pinnedParticipant state with
                | Some p => participant_local p
                | None => false
                end))
     || flag_truthy (disable1On1Mode state)).
Proof.
  intros Hcallee. unfold shouldRemoteVideosBeVisible.
  now rewrite Hcallee.
Qed.

(** C2, as stated, fails: with three participants and the callee info
    overlay visible the function returns false. *)
Lemma shouldRemoteVideosBeVisible_three_hidden_by_overlay :
  participantCount ctx_three_calling = 3%Z
  /\ shouldRemoteVideosBeVisible ctx_three_calling = false.
Proof. split; reflexivity. Qed.

(** C2, amended: when the callee info overlay is not visible, more than two
    participants make the remote thumbnails visible, whatever
    [disable1On1Mode], the toolbox visibility and the pinned participant
    are. *)
Theorem shouldRemoteVideosBeVisible_more_than_two (state : VisibilityContext) :
  calleeInfoVisible state = false ->
  (participantCount state > 2)%Z ->
  shouldRemoteVideosBeVisible state = true.
Proof.
  intros Hcallee Hcount.
  rewrite (shouldRemoteVideosBeVisible_no_overlay state Hcallee).
  assert (Hlt : (2 <? participantCount state)%Z = true)
    by (apply Z.ltb_lt; lia).
  now rewrite Hlt.
Qed.

Lemma shouldRemoteVideosBeVisible_more_than_two_witness :
  calleeInfoVisible ctx_three_plain = false
  /\ (participantCount ctx_three_plain > 2)%Z
  /\ shouldRemoteVideosBeVisible ctx_three_plain = true.
Proof.
  split; [reflexivity | split; [reflexivity |]].
  apply (shouldRemoteVideosBeVisible_more_than_two ctx_three_plain);
    reflexivity.
Defined.

(** C3: a visible callee info overlay hides the remote thumbnails, whatever
    the participant count, [disable1On1Mode], the toolbox visibility and the
    pinned participant are. *)
Theorem shouldRemoteVideosBeVisible_callee_info (state : VisibilityContext) :
  calleeInfoVisible state = true ->
  shouldRemoteVideosBeVisible state = false.
Proof.
  intros Hcallee. unfold shouldRemoteVideosBeVisible.
  now rewrite Hcallee.
Qed.

Lemma shouldRemoteVideosBeVisible_callee_info_witness :
  calleeInfoVisible ctx_three_calling = true
  /\ shouldRemoteVideosBeVisible ctx_three_calling = false.
Proof.
  split; [reflexivity |].
  apply (shouldRemoteVideosBeVisible_callee_info ctx_three_calling).
  reflexivity.
Defined.

(** ** Display mode *)

(** What [adjustedIsVideoPlayable] is for a remote participant whose video
    element has not fired [canplay]. *)
Lemma adjusted_playable_remote_waiting (input : DisplayModeInput) :
  isRemoteParticipant input = true ->
  canPlayEventReceived input = false ->
  isVideoPlayable input
  && (negb (isRemoteParticipant input) || canPlayEventReceived input)
  = false.
Proof.
  intros Hremote Hcanplay. rewrite Hremote, Hcanplay.
  apply andb_false_r.
Qed.

(** C7: a remote screen share outside tile view that is not hovered is shown
    as [DISPLAY_AVATAR], whatever the playability, audio-only and large-video
    fields are. *)
Theorem computeDisplayMode_remote_screen_share (input : DisplayModeInput) :
  isScreenSharing input = true ->
  isRemoteParticipant input = true ->
  tileViewActive input = false ->
  isHovered input = false ->
  computeDisplayMode input = DISPLAY_AVATAR.
Proof.
  intros Hshare Hremote Htile Hhover. unfold computeDisplayMode.
  now rewrite Hshare, Hremote, Htile, Hhover.
Qed.

Lemma computeDisplayMode_remote_screen_share_witness :
  computeDisplayMode dm_remote_share = DISPLAY_AVATAR.
Proof.
  apply (computeDisplayMode_remote_screen_share dm_remote_share);
    reflexivity.
Defined.

(** C9: a remote participant whose [canplay] event has not been received is
    shown as [DISPLAY_AVATAR] or [DISPLAY_AVATAR_WITH_NAME], never as one of
    the two video modes or as blackness, whatever the other fields are. *)
Theorem computeDisplayMode_remote_before_canplay (input : DisplayModeInput) :
  isRemoteParticipant input = true ->
  canPlayEventReceived input = false ->
  (computeDisplayMode input = DISPLAY_AVATAR
   \/ computeDisplayMode input = DISPLAY_AVATAR_WITH_NAME)
  /\ computeDisplayMode input <> DISPLAY_VIDEO
  /\ computeDisplayMode input <> DISPLAY_VIDEO_WITH_NAME
  /\ computeDisplayMode input <> DISPLAY_BLACKNESS_WITH_NAME.
Proof.
  intros Hremote Hcanplay.
  assert (Havatar : computeDisplayMode input = DISPLAY_AVATAR
                    \/ computeDisplayMode input = DISPLAY_AVATAR_WITH_NAME).
  { unfold computeDisplayMode.
    rewrite (adjusted_playable_remote_waiting input Hremote Hcanplay).
    cbn [andb].
    destruct (negb (tileViewActive input) && isScreenSharing input
              && isRemoteParticipant input);
      [destruct (isHovered input); auto |].
    destruct (isCurrentlyOnLargeVideo input && negb (tileViewActive input));
      [auto |].
    destruct (isHovered input); auto. }
  split; [exact Havatar |].
  destruct Havatar as [H | H]; rewrite H; repeat split; discriminate.
Qed.

Lemma computeDisplayMode_remote_before_canplay_witness :
  computeDisplayMode dm_remote_waiting = DISPLAY_AVATAR_WITH_NAME
  /\ computeDisplayMode dm_remote_waiting <> DISPLAY_VIDEO_WITH_NAME.
Proof.
  split; [reflexivity |].
  apply (computeDisplayMode_remote_before_canplay dm_remote_waiting);
    reflexivity.
Defined.

(** ** Facts about the number model *)

Lemma Qlt_bool_iff (x y : Q) : Qlt_bool x y = true <-> x < y.
Proof.
  unfold Qlt_bool. rewrite negb_true_iff. split.
  - intros H. apply Qnot_le_lt. intros Hle.
    apply Qle_bool_iff in Hle. congruence.
  - intros H. destruct (Qle_bool y x) eqn:E; [| reflexivity].
    apply Qle_bool_iff in E. exfalso. apply (Qlt_not_le x y); assumption.
Qed.

Lemma Qle_bool_false (x y : Q) : Qle_bool x y = false -> y < x.
Proof.
  intros H. apply Qlt_bool_iff. unfold Qlt_bool. now rewrite H.
Qed.

Lemma le_refl (a : number) : is_NaN a = false -> le a a = true.
Proof.
  number_cases. intros _. apply Qle_bool_iff. apply Qle_refl.
Qed.

Lemma le_trans (a b c : number) :
  le a b = true -> le b c = true -> le a c = true.
Proof.
  number_cases. rewrite !Qle_bool_iff. apply Qle_trans.
Qed.

Lemma le_not_NaN_l (a b : number) : le a b = true -> is_NaN a = false.
Proof. number_cases. Qed.

(** [Math.min] returns at most its first argument, NaN apart. *)
Lemma min_le_l (a b : number) :
  is_NaN a = false -> is_NaN b = false -> le (min a b) a = true.
Proof.
  destruct a as [x | | |], b as [y | | |]; cbn; try discriminate;
    try reflexivity; intros _ _.
  - destruct (Qle_bool x y) eqn:E; cbn; apply Qle_bool_iff.
    + apply Qle_refl.
    + apply Qlt_le_weak. now apply Qle_bool_false.
  - apply Qle_bool_iff. apply Qle_refl.
Qed.

(** Subtracting a finite number keeps the order. *)
Lemma sub_le_mono (a b : number) (c : Q) :
  le a b = true -> le (sub a (Fin c)) (sub b (Fin c)) = true.
Proof.
  number_cases. rewrite !Qle_bool_iff. intros H. lra.
Qed.

(** The value of [p || d] is never NaN when [d] is not. *)
Lemma or_default_not_NaN (p : property) (d : number) :
  is_NaN d = false -> is_NaN (or_default p d) = false.
Proof.
  intros Hd. destruct p as [a |]; cbn; [| exact Hd].
  destruct (truthy a) eqn:E; [| exact Hd].
  now destruct a.
Qed.

(** Adding a finite number never produces NaN from a number. *)
Lemma add_fin_not_NaN (a : number) (c : Q) :
  is_NaN a = false -> is_NaN (add a (Fin c)) = false.
Proof. number_cases. Qed.

(** A falsy configured value is replaced by the default, like an unset one. *)
Lemma or_default_falsy (a d : number) :
  truthy a = false -> or_default (Some a) d = or_default None d.
Proof. intros H. cbn. now rewrite H. Qed.

(** A truthy configured value is used as it is. *)
Lemma or_default_truthy (a d : number) :
  truthy a = true -> or_default (Some a) d = a.
Proof. intros H. cbn. now rewrite H. Qed.

(** NaN is absorbing for the quotient. *)
Lemma div_NaN_r (a : number) : div a NaN = NaN.
Proof. now destruct a. Qed.

(** ** Horizontal filmstrip *)

(** The shared height of the horizontal view, in the words of the code. *)
Lemma horizontal_height (c : InterfaceConfig) (clientHeight : number) :
  let sizes := calculateThumbnailSizeForHorizontalView c (Some clientHeight) in
  height (local sizes)
  = sub (min clientHeight (add (filmStripMaxHeight c) (of_Z 15))) (of_Z 15)
  /\ height (remote sizes) = height (local sizes).
Proof. split; reflexivity. Qed.

(** C6: for a client height of at most zero the horizontal view gives the
    local and the remote thumbnail the same height
    [min(clientHeight, cap + 15) - 15], which is at most [clientHeight - 15]
    and so at most -15; nothing clamps it. *)
Theorem calculateThumbnailSizeForHorizontalView_nonpositive_client
    (c : InterfaceConfig) (clientHeight : number) :
  le clientHeight (of_Z 0) = true ->
  let sizes := calculateThumbnailSizeForHorizontalView c (Some clientHeight) in
  height (remote sizes) = height (local sizes)
  /\ height (local sizes)
     = sub (min clientHeight (add (filmStripMaxHeight c) (of_Z 15))) (of_Z 15)
  /\ le (height (local sizes)) (sub clientHeight (of_Z 15)) = true
  /\ le (height (local sizes)) (of_Z (-15)) = true.
Proof.
  intros Hle sizes.
  destruct (horizontal_height c clientHeight) as [Hlocal Hremote].
  fold sizes in Hlocal, Hremote.
  assert (Hbelow : le (height (local sizes)) (sub clientHeight (of_Z 15))
                   = true).
  { rewrite Hlocal. apply sub_le_mono. apply min_le_l.
    - exact (le_not_NaN_l _ _ Hle).
    - apply add_fin_not_NaN. now apply or_default_not_NaN. }
  repeat split; try assumption.
  apply (le_trans _ _ _ Hbelow).
  apply (le_trans _ (sub (of_Z 0) (of_Z 15))).
  - now apply sub_le_mono.
  - reflexivity.
Qed.

Lemma calculateThumbnailSizeForHorizontalView_nonpositive_client_witness :
  le (of_Z (-40)) (of_Z 0) = true
  /\ height (local (calculateThumbnailSizeForHorizontalView
                      sample_config (Some (of_Z (-40)))))
     = Fin (-55)
  /\ le (height (local (calculateThumbnailSizeForHorizontalView
                          sample_config (Some (of_Z (-40))))))
        (of_Z (-15)) = true.
Proof.
  split; [reflexivity | split; [reflexivity |]].
  apply (calculateThumbnailSizeForHorizontalView_nonpositive_client
           sample_config (of_Z (-40))).
  reflexivity.
Defined.

(** ** Vertical filmstrip *)

(** C5: for every client width the vertical view gives both thumbnails the
    width [availableWidth = min(max(clientWidth - horizontalMargin, 0), cap)],
    where [horizontalMargin] is the sum of the four margin and border
    constants and [cap] is the configured [FILM_STRIP_MAX_HEIGHT] (read with
    its [|| 120], so the configured value itself whenever that is a truthy
    number), and the heights [floor(availableWidth / ratio)] for the local
    and the remote ratio. *)
Theorem calculateThumbnailSizeForVerticalView_formula
    (K : Constants) (c : InterfaceConfig) (clientWidth : number) :
  let availableWidth :=
    min (max (sub clientWidth (horizontalMargin K)) (of_Z 0))
        (filmStripMaxHeight c) in
  let sizes := calculateThumbnailSizeForVerticalView K c (Some clientWidth) in
  horizontalMargin K
  = Fin (VERTICAL_FILMSTRIP_MIN_HORIZONTAL_MARGIN K + SCROLL_SIZE K
         + TILE_HORIZONTAL_MARGIN K + STAGE_VIEW_THUMBNAIL_HORIZONTAL_BORDER K)
  /\ width (local sizes) = availableWidth
  /\ width (remote sizes) = availableWidth
  /\ height (local sizes)
     = floor (div availableWidth (to_number (LOCAL_THUMBNAIL_RATIO c)))
  /\ height (remote sizes)
     = floor (div availableWidth (to_number (REMOTE_THUMBNAIL_RATIO c)))
  /\ (forall m : number,
        FILM_STRIP_MAX_HEIGHT c = Some m -> truthy m = true ->
        filmStripMaxHeight c = m).
Proof.
  cbv zeta. repeat (split; [reflexivity |]).
  intros m Hset Htruthy. unfold filmStripMaxHeight. rewrite Hset.
  now apply or_default_truthy.
Qed.

Lemma calculateThumbnailSizeForVerticalView_formula_witness :
  calculateThumbnailSizeForVerticalView sample_constants sample_config
    (Some (of_Z 100))
  = {| local :=
         {| height := of_Z 42; width := Fin (100 + - (10 + 7 + 4 + 4)) |};
       remote :=
         {| height := of_Z 75; width := Fin (100 + - (10 + 7 + 4 + 4)) |} |}
  /\ filmStripMaxHeight sample_config = of_Z 120.
Proof.
  split; [reflexivity |].
  apply (calculateThumbnailSizeForVerticalView_formula sample_constants
           sample_config (of_Z 100));
    reflexivity.
Defined.

(** ** Defaults *)

(** Replacing a falsy [FILM_STRIP_MAX_HEIGHT] by no value at all changes
    none of the three functions that read it. *)
Lemma falsy_max_height_as_unset
    (K : Constants) (c : InterfaceConfig) (a : number)
    (clientHeight clientWidth : option number) (innerWidth : number) :
  truthy a = false ->
  calculateThumbnailSizeForHorizontalView (with_max_height (Some a) c)
    clientHeight
  = calculateThumbnailSizeForHorizontalView (with_max_height None c)
      clientHeight
  /\ calculateThumbnailSizeForVerticalView K (with_max_height (Some a) c)
       clientWidth
     = calculateThumbnailSizeForVerticalView K (with_max_height None c)
         clientWidth
  /\ getVerticalFilmstripVisibleAreaWidth (with_max_height (Some a) c)
       innerWidth
     = getVerticalFilmstripVisibleAreaWidth (with_max_height None c)
         innerWidth.
Proof.
  intros Hfalsy.
  unfold calculateThumbnailSizeForHorizontalView,
    calculateThumbnailSizeForVerticalView,
    getVerticalFilmstripVisibleAreaWidth.
  cbn [with_max_height FILM_STRIP_MAX_HEIGHT LOCAL_THUMBNAIL_RATIO
       REMOTE_THUMBNAIL_RATIO].
  rewrite (or_default_falsy a (of_Z 120) Hfalsy).
  repeat split.
Qed.

(** An unset [FILM_STRIP_MAX_HEIGHT] is read as 120 by the three functions. *)
Lemma unset_max_height_as_120
    (K : Constants) (c : InterfaceConfig)
    (clientHeight clientWidth : option number) (innerWidth : number) :
  calculateThumbnailSizeForHorizontalView (with_max_height None c)
    clientHeight
  = calculateThumbnailSizeForHorizontalView
      (with_max_height (Some (of_Z 120)) c) clientHeight
  /\ calculateThumbnailSizeForVerticalView K (with_max_height None c)
       clientWidth
     = calculateThumbnailSizeForVerticalView K
         (with_max_height (Some (of_Z 120)) c) clientWidth
  /\ getVerticalFilmstripVisibleAreaWidth (with_max_height None c) innerWidth
     = getVerticalFilmstripVisibleAreaWidth
         (with_max_height (Some (of_Z 120)) c) innerWidth.
Proof. repeat split. Qed.

(** C8, as stated, fails: with the two ratio values unset the widths of the
    horizontal view and the heights of the vertical view are NaN, which is
    not what the ratio 120 gives. *)
Lemma unset_ratios_are_not_120 :
  calculateThumbnailSizeForHorizontalView config_ratios_unset
    (Some (of_Z 135))
  <> calculateThumbnailSizeForHorizontalView config_ratios_120
       (Some (of_Z 135))
  /\ calculateThumbnailSizeForVerticalView sample_constants
       config_ratios_unset (Some (of_Z 1000))
     <> calculateThumbnailSizeForVerticalView sample_constants
          config_ratios_120 (Some (of_Z 1000))
  /\ calculateThumbnailSizeForHorizontalView config_ratios_unset
       (Some (of_Z 135))
  = {| local := {| height := of_Z 120; width := NaN |};
       remote := {| height := of_Z 120; width := NaN |} |}
  /\ calculateThumbnailSizeForHorizontalView config_ratios_120
       (Some (of_Z 135))
     = {| local := {| height := of_Z 120; width := of_Z 14400 |};
          remote := {| height := of_Z 120; width := of_Z 14400 |} |}
  /\ calculateThumbnailSizeForVerticalView sample_constants
       config_ratios_unset (Some (of_Z 1000))
     = {| local := {| height := NaN; width := of_Z 120 |};
          remote := {| height := NaN; width := of_Z 120 |} |}
  /\ calculateThumbnailSizeForVerticalView sample_constants
       config_ratios_120 (Some (of_Z 1000))
     = {| local := {| height := of_Z 1; width := of_Z 120 |};
          remote := {| height := of_Z 1; width := of_Z 120 |} |}.
Proof.
  split; [discriminate | split; [discriminate |]].
  repeat split.
Qed.

(** C8, amended: an omitted [clientHeight] is read as 0 by the horizontal
    view, and an unset [FILM_STRIP_MAX_HEIGHT] is read as 120 by the geometry
    functions.  The two ratio values have no default: left unset they turn
    the widths of the horizontal view and the heights of the vertical view
    into NaN. *)
Theorem geometry_defaults
    (K : Constants) (c : InterfaceConfig)
    (clientHeight clientWidth : option number) (innerWidth : number) :
  calculateThumbnailSizeForHorizontalView c None
  = calculateThumbnailSizeForHorizontalView c (Some (of_Z 0))
  /\ calculateThumbnailSizeForHorizontalView (with_max_height None c)
       clientHeight
     = calculateThumbnailSizeForHorizontalView
         (with_max_height (Some (of_Z 120)) c) clientHeight
  /\ calculateThumbnailSizeForVerticalView K (with_max_height None c)
       clientWidth
     = calculateThumbnailSizeForVerticalView K
         (with_max_height (Some (of_Z 120)) c) clientWidth
  /\ getVerticalFilmstripVisibleAreaWidth (with_max_height None c) innerWidth
     = getVerticalFilmstripVisibleAreaWidth
         (with_max_height (Some (of_Z 120)) c) innerWidth
  /\ (let sizes :=
        calculateThumbnailSizeForHorizontalView (with_ratios None None c)
          clientHeight in
      width (local sizes) = NaN /\ width (remote sizes) = NaN)
  /\ (let sizes :=
        calculateThumbnailSizeForVerticalView K (with_ratios None None c)
          clientWidth in
      height (local sizes) = NaN /\ height (remote sizes) = NaN).
Proof.
  split; [reflexivity |].
  destruct (unset_max_height_as_120 K c clientHeight clientWidth innerWidth)
    as (Hh & Hv & Hw).
  repeat (split; [assumption |]).
  split; cbn; rewrite ?div_NaN_r; split; reflexivity.
Qed.

(** C10: a [FILM_STRIP_MAX_HEIGHT] configured as 0 gives, in the horizontal
    view, the vertical view and the visible-area width, exactly what an unset
    one gives, namely what the cap 120 gives; the cap read from such a
    configuration is 120. *)
Theorem zero_max_height_is_unset
    (K : Constants) (c : InterfaceConfig)
    (clientHeight clientWidth : option number) (innerWidth : number) :
  let zero := with_max_height (Some (of_Z 0)) c in
  let unset := with_max_height None c in
  let cap120 := with_max_height (Some (of_Z 120)) c in
  filmStripMaxHeight zero = of_Z 120
  /\ calculateThumbnailSizeForHorizontalView zero clientHeight
     = calculateThumbnailSizeForHorizontalView unset clientHeight
  /\ calculateThumbnailSizeForHorizontalView zero clientHeight
     = calculateThumbnailSizeForHorizontalView cap120 clientHeight
  /\ calculateThumbnailSizeForVerticalView K zero clientWidth
     = calculateThumbnailSizeForVerticalView K unset clientWidth
  /\ calculateThumbnailSizeForVerticalView K zero clientWidth
     = calculateThumbnailSizeForVerticalView K cap120 clientWidth
  /\ getVerticalFilmstripVisibleAreaWidth zero innerWidth
     = getVerticalFilmstripVisibleAreaWidth unset innerWidth
  /\ getVerticalFilmstripVisibleAreaWidth zero innerWidth
     = getVerticalFilmstripVisibleAreaWidth cap120 innerWidth.
Proof.
  intros zero unset cap120.
  assert (Hfalsy : truthy (of_Z 0) = false) by reflexivity.
  destruct (falsy_max_height_as_unset K c (of_Z 0) clientHeight clientWidth
              innerWidth Hfalsy) as (Hh & Hv & Hw).
  destruct (unset_max_height_as_120 K c clientHeight clientWidth innerWidth)
    as (Hh' & Hv' & Hw').
  fold zero unset in Hh, Hv, Hw. fold unset cap120 in Hh', Hv', Hw'.
  split; [reflexivity |].
  split; [exact Hh |]. split; [exact (eq_trans Hh Hh') |].
  split; [exact Hv |]. split; [exact (eq_trans Hv Hv') |].
  split; [exact Hw | exact (eq_trans Hw Hw')].
Qed.

(** ** Tile view *)

(** The tile view calculation in terms of its named intermediate values. *)
Lemma calculateThumbnailSizeForTileView_unfold
    (K : Constants) (input : LayoutInput) :
  calculateThumbnailSizeForTileView K input
  = if gt (tile_height0 K input) (tile_noScrollHeight K input)
       && gt (tile_width0 K input) (tile_scrollInitialWidth K input)
    then {| height := tile_scrollHeight K input;
            width := tile_scrollWidth K input |}
    else {| height := tile_height0 K input; width := tile_width0 K input |}.
Proof. reflexivity. Qed.

(** C1: with [height0 = floor(min(aspectRatioHeight, initialHeight))] and
    [width0 = floor(aspectRatio * height0)], the tile view returns
    [{width0, height0}] unchanged as soon as one of
    [height0 > noScrollHeight] and [width0 > scrollInitialWidth] fails, and
    when both hold it returns the height
    [floor(max(min(scrollInitialWidth / aspectRatio, initialHeight),
    noScrollHeight))] with the width [floor(aspectRatio * height)]. *)
Theorem calculateThumbnailSizeForTileView_scroll_correction
    (K : Constants) (input : LayoutInput) :
  let aspectRatio := tile_aspectRatio K input in
  let height0 :=
    floor (min (tile_aspectRatioHeight K input) (tile_initialHeight K input)) in
  let width0 := floor (mul aspectRatio height0) in
  let higher := gt height0 (tile_noScrollHeight K input) in
  let wider := gt width0 (tile_scrollInitialWidth K input) in
  let height1 :=
    floor (max (min (div (tile_scrollInitialWidth K input) aspectRatio)
                    (tile_initialHeight K input))
               (tile_noScrollHeight K input)) in
  (higher = false \/ wider = false ->
   calculateThumbnailSizeForTileView K input
   = {| height := height0; width := width0 |})
  /\ (higher = true -> wider = true ->
      calculateThumbnailSizeForTileView K input
      = {| height := height1; width := floor (mul aspectRatio height1) |}).
Proof.
  intros aspectRatio height0 width0 higher wider height1.
  rewrite calculateThumbnailSizeForTileView_unfold.
  change (tile_height0 K input) with height0.
  change (tile_width0 K input) with width0.
  fold higher wider.
  split.
  - intros [H | H]; rewrite H; [| rewrite andb_false_r]; reflexivity.
  - intros Hh Hw. rewrite Hh, Hw. reflexivity.
Qed.

Lemma calculateThumbnailSizeForTileView_scroll_correction_witness :
  calculateThumbnailSizeForTileView sample_constants layout_no_scroll
  = {| height := of_Z 166; width := of_Z 295 |}
  /\ calculateThumbnailSizeForTileView sample_constants layout_scroll
     = {| height := of_Z 165; width := of_Z 293 |}.
Proof.
  split.
  - apply (proj1 (calculateThumbnailSizeForTileView_scroll_correction
                    sample_constants layout_no_scroll)).
    left. reflexivity.
  - apply (proj2 (calculateThumbnailSizeForTileView_scroll_correction
                    sample_constants layout_scroll)); reflexivity.
Defined.

(** *** Finite values stay finite *)

Lemma positive_finite_inv (a : number) :
  positive_finite a = true -> exists q, a = Fin q /\ 0 < q.
Proof.
  destruct a as [q | | |]; cbn; try discriminate.
  intros H. exists q. split; [reflexivity | now apply Qlt_bool_iff].
Qed.

Lemma is_finite_inv (a : number) :
  is_finite a = true -> exists q, a = Fin q.
Proof.
  destruct a as [q | | |]; cbn; try discriminate.
  intros _. now exists q.
Qed.

Lemma sub_finite (a b : number) :
  is_finite a = true -> is_finite b = true -> is_finite (sub a b) = true.
Proof. number_cases. Qed.

Lemma mul_finite (a b : number) :
  is_finite a = true -> is_finite b = true -> is_finite (mul a b) = true.
Proof. number_cases. Qed.

Lemma div_finite (a b : number) :
  is_finite a = true -> positive_finite b = true -> is_finite (div a b) = true.
Proof.
  intros Ha Hb.
  destruct (is_finite_inv a Ha) as [x ->].
  destruct (positive_finite_inv b Hb) as (y & -> & Hy).
  cbn. destruct (Qeq_bool y 0) eqn:E; [| reflexivity].
  apply Qeq_bool_eq in E. rewrite E in Hy.
  exfalso. exact (Qlt_irrefl 0 Hy).
Qed.

Lemma min_finite (a b : number) :
  is_finite a = true -> is_finite b = true -> is_finite (min a b) = true.
Proof.
  intros Ha Hb.
  destruct (is_finite_inv a Ha) as [x ->].
  destruct (is_finite_inv b Hb) as [y ->].
  cbn. now destruct (Qle_bool x y).
Qed.

Lemma max_finite (a b : number) :
  is_finite a = true -> is_finite b = true -> is_finite (max a b) = true.
Proof.
  intros Ha Hb.
  destruct (is_finite_inv a Ha) as [x ->].
  destruct (is_finite_inv b Hb) as [y ->].
  cbn. now destruct (Qle_bool x y).
Qed.

Lemma floor_finite (a : number) :
  is_finite a = true -> is_finite (floor a) = true.
Proof. number_cases. Qed.

Lemma positive_is_finite (a : number) :
  positive_finite a = true -> is_finite a = true.
Proof. number_cases. Qed.

(** [Math.floor(r * h)] is within one below [r * h] for finite [r], [h]. *)
Lemma floor_mul_close (r h : number) :
  is_finite r = true -> is_finite h = true ->
  let w := floor (mul r h) in
  le w (mul r h) = true
  /\ lt (mul r h) (add w (of_Z 1)) = true
  /\ le (abs (sub w (mul r h))) (of_Z 1) = true.
Proof.
  intros Hr Hh.
  destruct (is_finite_inv r Hr) as [x ->].
  destruct (is_finite_inv h Hh) as [y ->].
  cbv zeta. cbn [mul floor sub add neg abs le lt of_Z].
  pose proof (Qfloor_le (x * y)) as Hlow.
  pose proof (Qlt_floor (x * y)) as Hup.
  rewrite inject_Z_plus in Hup.
  rewrite Qlt_bool_iff, !Qle_bool_iff.
  split; [exact Hlow | split; [exact Hup |]].
  apply Qabs_Qle_condition.
  change (inject_Z 1) with 1 in *.
  split; lra.
Qed.

(** Under the hypotheses of the data model every intermediate value of the
    tile view is finite. *)
Section TileFinite.

Context (K : Constants) (input : LayoutInput).
Hypothesis columns_pos : positive_finite (columns input) = true.
Hypothesis minVisibleRows_pos : positive_finite (minVisibleRows input) = true.
Hypothesis rows_pos : positive_finite (rows input) = true.
Hypothesis clientWidth_fin : is_finite (clientWidth input) = true.
Hypothesis clientHeight_fin : is_finite (clientHeight input) = true.
Hypothesis aspectRatio_pos : positive_finite (tile_aspectRatio K input) = true.

Lemma tile_viewWidth_finite : is_finite (tile_viewWidth K input) = true.
Proof.
  apply sub_finite; [assumption |].
  apply mul_finite; [now apply positive_is_finite | reflexivity].
Qed.

Lemma tile_initialHeight_finite :
  is_finite (tile_initialHeight K input) = true.
Proof.
  apply div_finite; [| assumption].
  apply sub_finite; [assumption |].
  apply mul_finite; [now apply positive_is_finite | reflexivity].
Qed.

Lemma tile_aspectRatioHeight_finite :
  is_finite (tile_aspectRatioHeight K input) = true.
Proof.
  apply div_finite; [| assumption].
  apply div_finite; [apply tile_viewWidth_finite | assumption].
Qed.

Lemma tile_noScrollHeight_finite :
  is_finite (tile_noScrollHeight K input) = true.
Proof.
  apply sub_finite; [| reflexivity].
  now apply div_finite.
Qed.

Lemma tile_scrollInitialWidth_finite :
  is_finite (tile_scrollInitialWidth K input) = true.
Proof.
  apply div_finite; [| assumption].
  apply sub_finite; [apply tile_viewWidth_finite | reflexivity].
Qed.

Lemma tile_height0_finite : is_finite (tile_height0 K input) = true.
Proof.
  apply floor_finite, min_finite;
    [apply tile_aspectRatioHeight_finite | apply tile_initialHeight_finite].
Qed.

Lemma tile_scrollHeight_finite : is_finite (tile_scrollHeight K input) = true.
Proof.
  apply floor_finite, max_finite; [| apply tile_noScrollHeight_finite].
  apply min_finite; [| apply tile_initialHeight_finite].
  apply div_finite; [apply tile_scrollInitialWidth_finite | assumption].
Qed.

(** Either way, the returned width is the floor of the aspect ratio times the
    returned height, and that height is finite. *)
Lemma tile_result_shape :
  let size := calculateThumbnailSizeForTileView K input in
  is_finite (height size) = true
  /\ width size = floor (mul (tile_aspectRatio K input) (height size)).
Proof.
  cbv zeta. rewrite calculateThumbnailSizeForTileView_unfold.
  destruct (gt (tile_height0 K input) (tile_noScrollHeight K input)
            && gt (tile_width0 K input) (tile_scrollInitialWidth K input));
    cbn [height width]; split;
    auto using tile_height0_finite, tile_scrollHeight_finite.
Qed.

End TileFinite.

(** C4: for a layout with positive finite [columns], [minVisibleRows] and
    [rows], finite window sizes and a positive aspect ratio, the returned
    width is within 1 of the aspect ratio chosen by the function times the
    returned height; more precisely it is the integer just below or at that
    product. *)
Theorem calculateThumbnailSizeForTileView_aspect_round_trip
    (K : Constants) (input : LayoutInput) :
  positive_finite (columns input) = true ->
  positive_finite (minVisibleRows input) = true ->
  positive_finite (rows input) = true ->
  is_finite (clientWidth input) = true ->
  is_finite (clientHeight input) = true ->
  positive_finite (tile_aspectRatio K input) = true ->
  let size := calculateThumbnailSizeForTileView K input in
  let product := mul (tile_aspectRatio K input) (height size) in
  le (abs (sub (width size) product)) (of_Z 1) = true
  /\ le (width size) product = true
  /\ lt product (add (width size) (of_Z 1)) = true.
Proof.
  intros Hc Hm Hr Hw Hh Ha. cbv zeta.
  pose proof (tile_result_shape K input Hc Hm Hr Hw Hh Ha) as Hshape.
  cbv zeta in Hshape. destruct Hshape as [Hfin Hwidth].
  pose proof (floor_mul_close (tile_aspectRatio K input) _
                (positive_is_finite _ Ha) Hfin) as Hclose.
  cbv zeta in Hclose. rewrite <- Hwidth in Hclose.
  destruct Hclose as (Hle & Hlt & Habs). auto.
Qed.

Lemma calculateThumbnailSizeForTileView_aspect_round_trip_witness :
  positive_finite (columns layout_scroll) = true
  /\ positive_finite (tile_aspectRatio sample_constants layout_scroll) = true
  /\ le (abs (sub (of_Z 293) (mul (Fin (16 # 9)) (of_Z 165)))) (of_Z 1)
     = true.
Proof.
  split; [reflexivity | split; [reflexivity |]].
  apply (calculateThumbnailSizeForTileView_aspect_round_trip
           sample_constants layout_scroll);
    reflexivity.
Defined.

(** ** Playability: what the answer depends on *)

Section PlayableFacts.

Import Playable.

Context (B : Collaborators).

(** X1: in audio-only mode no video is playable, for the local participant
    and for every remote one. *)
Theorem isVideoPlayable_audio_only (state : State B) (id : option string) :
  features_base_audio_only_enabled B state = true ->
  isVideoPlayable B state id = false.
Proof.
  intros Haudio. unfold isVideoPlayable. cbv zeta. rewrite Haudio.
  destruct (local_or_true _).
  - cbn [negb]. apply andb_false_r.
  - destruct (negb _); [| reflexivity].
    cbn [negb]. rewrite andb_false_r. reflexivity.
Qed.

(** X2: an id that names no participant is handled as the local participant:
    the answer is read off the local video track, not off a track of that
    id. *)
Theorem isVideoPlayable_unknown_id (state : State B) (id : option string) :
  id_truthy id = true ->
  getParticipantById B state id = None ->
  isVideoPlayable B state id
  = defined (getLocalVideoTrack B (features_base_tracks B state))
    && negb (isLocalTrackMuted B (features_base_tracks B state)
               (MEDIA_TYPE_VIDEO B))
    && negb (features_base_audio_only_enabled B state).
Proof.
  intros Hid Hnone. unfold isVideoPlayable. cbv zeta.
  rewrite Hid, Hnone. reflexivity.
Qed.

(** X3: the video of a remote participant is playable only when the
    participant is not a fake one, its connection status is [ACTIVE], a video
    track is found for its id and that track is not muted. *)
Theorem isVideoPlayable_remote_sound
    (state : State B) (id : option string) (p : Participant) :
  id_truthy id = true ->
  getParticipantById B state id = Some p ->
  local p = Some false ->
  isVideoPlayable B state id = true ->
  isFakeParticipant p = false
  /\ connectionStatus p = Some (ACTIVE B)
  /\ defined (getTrackByMediaTypeAndParticipant B
                (features_base_tracks B state) (MEDIA_TYPE_VIDEO B) id)
     = true
  /\ isRemoteTrackMuted B (features_base_tracks B state) (MEDIA_TYPE_VIDEO B)
       id = false
  /\ features_base_audio_only_enabled B state = false.
Proof.
  intros Hid Hp Hlocal. unfold isVideoPlayable. cbv zeta.
  rewrite Hid, Hp. unfold local_or_true. rewrite Hlocal.
  destruct (isFakeParticipant p); cbn [negb]; [discriminate |].
  rewrite !andb_true_iff, !negb_true_iff.
  intros [[[Htrack Hmuted] Haudio] Hstatus].
  repeat split; try assumption.
  unfold status_is in Hstatus.
  destruct (connectionStatus p) as [s |]; [| discriminate].
  apply String.eqb_eq in Hstatus. now subst s.
Qed.

(** X4: a participant whose [local] property is missing is taken for the
    local one, so its own connection status, its fake flag and the tracks of
    its id play no role. *)
Theorem isVideoPlayable_missing_local_flag
    (state : State B) (id : option string) (p : Participant) :
  id_truthy id = true ->
  getParticipantById B state id = Some p ->
  local p = None ->
  isVideoPlayable B state id
  = defined (getLocalVideoTrack B (features_base_tracks B state))
    && negb (isLocalTrackMuted B (features_base_tracks B state)
               (MEDIA_TYPE_VIDEO B))
    && negb (features_base_audio_only_enabled B state).
Proof.
  intros Hid Hp Hlocal. unfold isVideoPlayable. cbv zeta.
  rewrite Hid, Hp. unfold local_or_true. rewrite Hlocal. reflexivity.
Qed.

End PlayableFacts.

Lemma isVideoPlayable_audio_only_witness :
  Playable.isVideoPlayable Playable.sample_collaborators true
    (Some "ann"%string) = false.
Proof.
  apply (isVideoPlayable_audio_only Playable.sample_collaborators true).
  reflexivity.
Defined.

Lemma isVideoPlayable_unknown_id_witness :
  Playable.isVideoPlayable Playable.sample_collaborators false
    (Some "bob"%string) = true.
Proof.
  apply (isVideoPlayable_unknown_id Playable.sample_collaborators false
           (Some "bob"%string));
    reflexivity.
Defined.

Lemma isVideoPlayable_remote_sound_witness :
  Playable.isVideoPlayable Playable.sample_collaborators false
    (Some "ann"%string) = true
  /\ Playable.connectionStatus
       {| Playable.local := Some false;
          Playable.connectionStatus := Some "active"%string;
          Playable.isFakeParticipant := false |}
     = Some "active"%string.
Proof.
  split; [reflexivity |].
  apply (isVideoPlayable_remote_sound Playable.sample_collaborators false
           (Some "ann"%string));
    reflexivity.
Defined.

Lemma isVideoPlayable_missing_local_flag_witness :
  Playable.isVideoPlayable Playable.sample_collaborators false
    (Some "guest"%string) = true.
Proof.
  apply (isVideoPlayable_missing_local_flag Playable.sample_collaborators
           false (Some "guest"%string)
           {| Playable.local := None;
              Playable.connectionStatus := None;
              Playable.isFakeParticipant := true |});
    reflexivity.
Defined.

(** ** Display mode: names, avatars and what is ignored *)

(** Every boolean field of a display-mode input, one after the other. *)
Ltac display_cases input :=
  destruct input as [audio large share canplay hover remote tile playable];
  cbn in *;
  destruct audio, large, share, canplay, hover, remote, tile, playable;
  cbn in *; try discriminate; try reflexivity; auto.

(** X5: a hovered thumbnail always shows the participant's name. *)
Theorem computeDisplayMode_hovered_shows_name (input : DisplayModeInput) :
  isHovered input = true ->
  shows_name (computeDisplayMode input) = true.
Proof. display_cases input. Qed.

Lemma computeDisplayMode_hovered_shows_name_witness :
  shows_name (computeDisplayMode dm_remote_waiting) = true.
Proof.
  apply (computeDisplayMode_hovered_shows_name dm_remote_waiting).
  reflexivity.
Defined.

(** X6: a thumbnail that is neither hovered nor on the large video never
    shows the name. *)
Theorem computeDisplayMode_plain_hides_name (input : DisplayModeInput) :
  isHovered input = false ->
  isCurrentlyOnLargeVideo input = false ->
  shows_name (computeDisplayMode input) = false.
Proof. display_cases input. Qed.

(** The remote tile of [dm_remote_waiting], not hovered. *)
Lemma computeDisplayMode_plain_hides_name_witness :
  shows_name
    (computeDisplayMode
       {| isAudioOnly := false;
          isCurrentlyOnLargeVideo := false;
          isScreenSharing := false;
          canPlayEventReceived := true;
          isHovered := false;
          isRemoteParticipant := true;
          tileViewActive := true;
          isVideoPlayable := true |}) = false.
Proof.
  apply computeDisplayMode_plain_hides_name; reflexivity.
Defined.

(** X7: in audio-only mode, or when the video is not playable, the avatar is
    shown: the result is [DISPLAY_AVATAR] or [DISPLAY_AVATAR_WITH_NAME]. *)
Theorem computeDisplayMode_no_video_shows_avatar (input : DisplayModeInput) :
  isAudioOnly input = true \/ isVideoPlayable input = false ->
  shows_avatar (computeDisplayMode input) = true.
Proof. intros [H | H]; display_cases input. Qed.

Lemma computeDisplayMode_no_video_shows_avatar_witness :
  shows_avatar
    (computeDisplayMode
       {| isAudioOnly := true;
          isCurrentlyOnLargeVideo := true;
          isScreenSharing := false;
          canPlayEventReceived := true;
          isHovered := false;
          isRemoteParticipant := false;
          tileViewActive := false;
          isVideoPlayable := true |}) = true.
Proof.
  apply computeDisplayMode_no_video_shows_avatar. left. reflexivity.
Defined.

(** X8: blackness is shown only for the participant on the large video
    outside tile view, with a playable video and not in audio-only mode. *)
Theorem computeDisplayMode_blackness_only_on_stage (input : DisplayModeInput) :
  computeDisplayMode input = DISPLAY_BLACKNESS_WITH_NAME ->
  isCurrentlyOnLargeVideo input = true
  /\ tileViewActive input = false
  /\ isVideoPlayable input = true
  /\ isAudioOnly input = false.
Proof. display_cases input. Qed.

Lemma computeDisplayMode_blackness_only_on_stage_witness :
  computeDisplayMode
    {| isAudioOnly := false;
       isCurrentlyOnLargeVideo := true;
       isScreenSharing := false;
       canPlayEventReceived := true;
       isHovered := false;
       isRemoteParticipant := true;
       tileViewActive := false;
       isVideoPlayable := true |} = DISPLAY_BLACKNESS_WITH_NAME
  /\ tileViewActive
       {| isAudioOnly := false;
          isCurrentlyOnLargeVideo := true;
          isScreenSharing := false;
          canPlayEventReceived := true;
          isHovered := false;
          isRemoteParticipant := true;
          tileViewActive := false;
          isVideoPlayable := true |} = false.
Proof.
  split; [reflexivity |].
  apply computeDisplayMode_blackness_only_on_stage. reflexivity.
Defined.

(** X9: in tile view the result depends neither on [isScreenSharing] nor on
    [isCurrentlyOnLargeVideo]. *)
Theorem computeDisplayMode_tile_view_ignores_stage
    (input : DisplayModeInput) (share large : bool) :
  tileViewActive input = true ->
  computeDisplayMode
    {| isAudioOnly := isAudioOnly input;
       isCurrentlyOnLargeVideo := large;
       isScreenSharing := share;
       canPlayEventReceived := canPlayEventReceived input;
       isHovered := isHovered input;
       isRemoteParticipant := isRemoteParticipant input;
       tileViewActive := tileViewActive input;
       isVideoPlayable := isVideoPlayable input |}
  = computeDisplayMode input.
Proof.
  intros Htile. unfold computeDisplayMode. cbn. rewrite Htile. cbn.
  now rewrite !andb_false_r.
Qed.

Lemma computeDisplayMode_tile_view_ignores_stage_witness :
  computeDisplayMode
    {| isAudioOnly := false;
       isCurrentlyOnLargeVideo := true;
       isScreenSharing := true;
       canPlayEventReceived := false;
       isHovered := true;
       isRemoteParticipant := true;
       tileViewActive := true;
       isVideoPlayable := true |}
  = computeDisplayMode dm_remote_waiting.
Proof.
  apply (computeDisplayMode_tile_view_ignores_stage dm_remote_waiting
           true true).
  reflexivity.
Defined.

(** X10: for the local participant the [canplay] event plays no role. *)
Theorem computeDisplayMode_local_ignores_canplay
    (input : DisplayModeInput) (canplay : bool) :
  isRemoteParticipant input = false ->
  computeDisplayMode
    {| isAudioOnly := isAudioOnly input;
       isCurrentlyOnLargeVideo := isCurrentlyOnLargeVideo input;
       isScreenSharing := isScreenSharing input;
       canPlayEventReceived := canplay;
       isHovered := isHovered input;
       isRemoteParticipant := isRemoteParticipant input;
       tileViewActive := tileViewActive input;
       isVideoPlayable := isVideoPlayable input |}
  = computeDisplayMode input.
Proof.
  intros Hremote. unfold computeDisplayMode. cbn. rewrite Hremote. cbn.
  reflexivity.
Qed.

Lemma computeDisplayMode_local_ignores_canplay_witness :
  computeDisplayMode
    {| isAudioOnly := false;
       isCurrentlyOnLargeVideo := false;
       isScreenSharing := false;
       canPlayEventReceived := false;
       isHovered := false;
       isRemoteParticipant := false;
       tileViewActive := false;
       isVideoPlayable := true |}
  = computeDisplayMode
      {| isAudioOnly := false;
         isCurrentlyOnLargeVideo := false;
         isScreenSharing := false;
         canPlayEventReceived := true;
         isHovered := false;
         isRemoteParticipant := false;
         tileViewActive := false;
         isVideoPlayable := true |}.
Proof.
  apply (computeDisplayMode_local_ignores_canplay
           {| isAudioOnly := false;
              isCurrentlyOnLargeVideo := false;
              isScreenSharing := false;
              canPlayEventReceived := true;
              isHovered := false;
              isRemoteParticipant := false;
              tileViewActive := false;
              isVideoPlayable := true |} false).
  reflexivity.
Defined.

(** ** Visibility: the 1-on-1 rules *)

(** X11: with [disable1On1Mode] set to true the remote thumbnails are
    visible whatever the number of participants is, unless the callee info
    overlay is shown. *)
Theorem shouldRemoteVideosBeVisible_1on1_disabled (state : VisibilityContext) :
  calleeInfoVisible state = false ->
  disable1On1Mode state = Boolean true ->
  shouldRemoteVideosBeVisible state = true.
Proof.
  intros Hcallee Hflag.
  rewrite (shouldRemoteVideosBeVisible_no_overlay state Hcallee), Hflag.
  apply orb_true_r.
Qed.

Lemma shouldRemoteVideosBeVisible_1on1_disabled_witness :
  shouldRemoteVideosBeVisible
    {| calleeInfoVisible := false;
       participantCount := 1;
       disable1On1Mode := Boolean true;
       toolboxVisible := false;
       pinnedParticipant := None |} = true.
Proof.
  apply shouldRemoteVideosBeVisible_1on1_disabled; reflexivity.
Defined.

(** X12: with [disable1On1Mode] set to [null], up to two participants never
    make the remote thumbnails visible: neither the toolbox nor a pinned
    local participant brings them up. *)
Theorem shouldRemoteVideosBeVisible_null_flag (state : VisibilityContext) :
  disable1On1Mode state = Null ->
  (participantCount state <= 2)%Z ->
  shouldRemoteVideosBeVisible state = false.
Proof.
  intros Hflag Hcount. unfold shouldRemoteVideosBeVisible.
  destruct (calleeInfoVisible state); [reflexivity |].
  rewrite Hflag. cbn [flag_not_null flag_truthy].
  assert (Hlt : (2 <? participantCount state)%Z = false)
    by (apply Z.ltb_ge; lia).
  rewrite Hlt, andb_false_r. reflexivity.
Qed.

Lemma shouldRemoteVideosBeVisible_null_flag_witness :
  shouldRemoteVideosBeVisible
    {| calleeInfoVisible := false;
       participantCount := 2;
       disable1On1Mode := Null;
       toolboxVisible := true;
       pinnedParticipant := Some {| participant_local := true |} |} = false.
Proof.
  apply shouldRemoteVideosBeVisible_null_flag; [reflexivity | cbn; lia].
Defined.

(** X13: with exactly two participants and [disable1On1Mode] unset or
    false, the remote thumbnails are visible exactly when the toolbox is
    visible or the pinned participant is the local one. *)
Theorem shouldRemoteVideosBeVisible_two_participants
    (state : VisibilityContext) :
  calleeInfoVisible state = false ->
  participantCount state = 2%Z ->
  disable1On1Mode state = Undefined
  \/ disable1On1Mode state = Boolean false ->
  shouldRemoteVideosBeVisible state
  = (toolboxVisible state
     || match pinnedParticipant state with
        | Some p => participant_local p
        | None => false
        end).
Proof.
  intros Hcallee Hcount Hflag.
  rewrite (shouldRemoteVideosBeVisible_no_overlay state Hcallee), Hcount.
  destruct Hflag as [-> | ->]; cbn; now rewrite orb_false_r.
Qed.

Lemma shouldRemoteVideosBeVisible_two_participants_witness :
  shouldRemoteVideosBeVisible
    {| calleeInfoVisible := false;
       participantCount := 2;
       disable1On1Mode := Undefined;
       toolboxVisible := false;
       pinnedParticipant := Some {| participant_local := true |} |} = true.
Proof.
  apply (shouldRemoteVideosBeVisible_two_participants
           {| calleeInfoVisible := false;
              participantCount := 2;
              disable1On1Mode := Undefined;
              toolboxVisible := false;
              pinnedParticipant := Some {| participant_local := true |} |});
    [reflexivity | reflexivity | left; reflexivity].
Defined.

(** X14: a participant alone in the conference (a count of at most one) sees
    no remote thumbnails unless [disable1On1Mode] is true. *)
Theorem shouldRemoteVideosBeVisible_alone (state : VisibilityContext) :
  (participantCount state <= 1)%Z ->
  disable1On1Mode state <> Boolean true ->
  shouldRemoteVideosBeVisible state = false.
Proof.
  intros Hcount Hflag. unfold shouldRemoteVideosBeVisible.
  destruct (calleeInfoVisible state); [reflexivity |].
  assert (H2 : (2 <? participantCount state)%Z = false)
    by (apply Z.ltb_ge; lia).
  assert (H1 : (1 <? participantCount state)%Z = false)
    by (apply Z.ltb_ge; lia).
  rewrite H2, H1. cbn.
  destruct (disable1On1Mode state) as [| | [|]]; cbn; congruence.
Qed.

Lemma shouldRemoteVideosBeVisible_alone_witness :
  shouldRemoteVideosBeVisible
    {| calleeInfoVisible := false;
       participantCount := 1;
       disable1On1Mode := Boolean false;
       toolboxVisible := true;
       pinnedParticipant := Some {| participant_local := true |} |} = false.
Proof.
  apply shouldRemoteVideosBeVisible_alone; [cbn; lia | discriminate].
Defined.

(** X15: more participants never hide the remote thumbnails: if they are
    visible for some count, they stay visible for every larger count, the
    rest of the state being the same. *)
Theorem shouldRemoteVideosBeVisible_monotone
    (state : VisibilityContext) (more : Z) :
  (participantCount state <= more)%Z ->
  shouldRemoteVideosBeVisible state = true ->
  shouldRemoteVideosBeVisible
    {| calleeInfoVisible := calleeInfoVisible state;
       participantCount := more;
       disable1On1Mode := disable1On1Mode state;
       toolboxVisible := toolboxVisible state;
       pinnedParticipant := pinnedParticipant state |} = true.
Proof.
  intros Hmore. unfold shouldRemoteVideosBeVisible. cbn.
  destruct (calleeInfoVisible state); [discriminate |].
  destruct (flag_truthy (disable1On1Mode state));
    [intros _; apply orb_true_r |].
  rewrite !orb_false_r.
  destruct (2 <? participantCount state)%Z eqn:H2.
  - intros _. apply Z.ltb_lt in H2.
    assert (H : (2 <? more)%Z = true) by (apply Z.ltb_lt; lia).
    now rewrite H.
  - cbn [orb]. rewrite !andb_true_iff. intros [[H1 Hnull] Hshow].
    apply Z.ltb_lt in H1.
    assert (H : (1 <? more)%Z = true) by (apply Z.ltb_lt; lia).
    rewrite H, Hnull, Hshow. apply orb_true_r.
Qed.

Lemma shouldRemoteVideosBeVisible_monotone_witness :
  shouldRemoteVideosBeVisible
    {| calleeInfoVisible := calleeInfoVisible ctx_three_plain;
       participantCount := 7;
       disable1On1Mode := disable1On1Mode ctx_three_plain;
       toolboxVisible := toolboxVisible ctx_three_plain;
       pinnedParticipant := pinnedParticipant ctx_three_plain |} = true.
Proof.
  apply (shouldRemoteVideosBeVisible_monotone ctx_three_plain 7);
    [cbn; lia | reflexivity].
Defined.

(** ** Order facts about the number model *)

(** Turn the boolean comparisons of rationals in sight into propositions. *)
Ltac qprop :=
  repeat match goal with
         | H : Qle_bool _ _ = true |- _ => apply Qle_bool_iff in H
         | H : Qle_bool _ _ = false |- _ => apply Qle_bool_false in H
         | H : Qlt_bool _ _ = true |- _ => apply Qlt_bool_iff in H
         | |- Qle_bool _ _ = true => apply Qle_bool_iff
         | |- Qlt_bool _ _ = true => apply Qlt_bool_iff
         end.

(** Split on the comparison that decides a [Math.min] or [Math.max]. *)
Ltac split_if :=
  repeat match goal with
         | |- context [if Qle_bool ?x ?y then _ else _] =>
             let E := fresh "E" in destruct (Qle_bool x y) eqn:E; cbn
         | H : context [if Qle_bool ?x ?y then _ else _] |- _ =>
             let E := fresh "E" in destruct (Qle_bool x y) eqn:E; cbn in H
         end.

Ltac order_cases := number_cases; split_if; intros; qprop; try lra.

Lemma min_le_r (a b : number) :
  is_NaN a = false -> is_NaN b = false -> le (min a b) b = true.
Proof. order_cases. Qed.

Lemma min_glb (x a b : number) :
  le x a = true -> le x b = true -> le x (min a b) = true.
Proof. order_cases. Qed.

Lemma max_lub (a b c : number) :
  le a c = true -> le b c = true -> le (max a b) c = true.
Proof. order_cases. Qed.

Lemma max_ge_r (a b : number) :
  is_NaN a = false -> is_NaN b = false -> le b (max a b) = true.
Proof. order_cases. Qed.

Lemma min_le_mono_l (a a' b : number) :
  le a a' = true -> is_NaN b = false -> le (min a b) (min a' b) = true.
Proof. order_cases. Qed.

Lemma max_le_mono_l (a a' b : number) :
  le a a' = true -> is_NaN b = false -> le (max a b) (max a' b) = true.
Proof. order_cases. Qed.

Lemma min_not_NaN (a b : number) :
  is_NaN a = false -> is_NaN b = false -> is_NaN (min a b) = false.
Proof. order_cases. Qed.

Lemma max_not_NaN (a b : number) :
  is_NaN a = false -> is_NaN b = false -> is_NaN (max a b) = false.
Proof. order_cases. Qed.

Lemma sub_fin_not_NaN (a : number) (c : Q) :
  is_NaN a = false -> is_NaN (sub a (Fin c)) = false.
Proof. number_cases. Qed.

Lemma le_not_NaN_r (a b : number) : le a b = true -> is_NaN b = false.
Proof. number_cases. Qed.

Lemma gt_le (a b : number) : gt a b = true -> le b a = true.
Proof. unfold gt. order_cases. Qed.

Lemma floor_le (a : number) : is_NaN a = false -> le (floor a) a = true.
Proof.
  destruct a as [x | | |]; cbn; try discriminate; try reflexivity.
  intros _. apply Qle_bool_iff, Qfloor_le.
Qed.

Lemma floor_mono (a b : number) :
  le a b = true -> le (floor a) (floor b) = true.
Proof.
  destruct a as [x | | |], b as [y | | |]; cbn; try discriminate;
    try reflexivity.
  rewrite !Qle_bool_iff. intros H.
  rewrite <- Zle_Qle. now apply Qfloor_resp_le.
Qed.

(** Whatever bounds [b] from above bounds its floor. *)
Lemma floor_le_of_le (a b : number) :
  le b a = true -> le (floor b) a = true.
Proof.
  intros H. apply (le_trans _ b); [| exact H].
  apply floor_le. exact (le_not_NaN_l _ _ H).
Qed.

Lemma add_fin_le_mono (a b : number) (c : Q) :
  le a b = true -> le (add a (Fin c)) (add b (Fin c)) = true.
Proof. order_cases. Qed.




Lemma add_fin_nonneg_le (a : number) (c : Q) :
  is_NaN a = false -> 0 <= c -> le a (add a (Fin c)) = true.
Proof. order_cases. Qed.

Lemma sub_fin_nonneg_le (a : number) (c : Q) :
  is_NaN a = false -> 0 <= c -> le (sub a (Fin c)) a = true.
Proof. order_cases. Qed.

(** The cap read from the configuration is never NaN. *)
Lemma filmStripMaxHeight_not_NaN (c : InterfaceConfig) :
  is_NaN (filmStripMaxHeight c) = false.
Proof. now apply or_default_not_NaN. Qed.

(** ** Horizontal filmstrip: bounds and monotonicity *)





(** X18: the height of the horizontal view grows with the client height: a
    higher window never gives lower thumbnails. *)
Theorem calculateThumbnailSizeForHorizontalView_monotone
    (c : InterfaceConfig) (lower higher : number) :
  le lower higher = true ->
  le (height (local (calculateThumbnailSizeForHorizontalView c (Some lower))))
     (height (local (calculateThumbnailSizeForHorizontalView c
                       (Some higher)))) = true
  /\ le (height (remote (calculateThumbnailSizeForHorizontalView c
                           (Some lower))))
        (height (remote (calculateThumbnailSizeForHorizontalView c
                           (Some higher)))) = true.
Proof.
  intros Hle.
  destruct (horizontal_height c lower) as [Hl1 Hr1].
  destruct (horizontal_height c higher) as [Hl2 Hr2].
  cbv zeta in Hl1, Hr1, Hl2, Hr2.
  rewrite Hr1, Hr2, Hl1, Hl2.
  assert (H : le (sub (min lower (add (filmStripMaxHeight c) (of_Z 15)))
                      (of_Z 15))
                 (sub (min higher (add (filmStripMaxHeight c) (of_Z 15)))
                      (of_Z 15)) = true).
  { apply sub_le_mono. apply min_le_mono_l; [exact Hle |].
    apply add_fin_not_NaN, filmStripMaxHeight_not_NaN. }
  split; exact H.
Qed.

Lemma calculateThumbnailSizeForHorizontalView_monotone_witness :
  le (height (local (calculateThumbnailSizeForHorizontalView sample_config
                       (Some (of_Z 50)))))
     (height (local (calculateThumbnailSizeForHorizontalView sample_config
                       (Some (of_Z 90))))) = true.
Proof.
  apply (calculateThumbnailSizeForHorizontalView_monotone sample_config
           (of_Z 50) (of_Z 90)).
  reflexivity.
Defined.

(** ** Vertical filmstrip: bounds, collapse and monotonicity *)

(** The shared width of the vertical view, in the words of the code. *)
Lemma vertical_width (K : Constants) (c : InterfaceConfig) (w : number) :
  let sizes := calculateThumbnailSizeForVerticalView K c (Some w) in
  width (local sizes)
  = min (max (sub w (horizontalMargin K)) (of_Z 0)) (filmStripMaxHeight c)
  /\ width (remote sizes) = width (local sizes).
Proof. split; reflexivity. Qed.

Lemma horizontalMargin_finite (K : Constants) :
  exists m : Q, horizontalMargin K = Fin m.
Proof. eexists. reflexivity. Qed.

Lemma available_not_NaN (K : Constants) (w : number) :
  is_NaN w = false ->
  is_NaN (max (sub w (horizontalMargin K)) (of_Z 0)) = false.
Proof.
  intros Hw. destruct (horizontalMargin_finite K) as [m ->].
  apply max_not_NaN; [now apply sub_fin_not_NaN | reflexivity].
Qed.

(** X19: the thumbnails of the vertical view are never wider than the cap
    [FILM_STRIP_MAX_HEIGHT || 120], and never narrower than 0 when that cap
    is not negative. *)
Theorem calculateThumbnailSizeForVerticalView_width_bounds
    (K : Constants) (c : InterfaceConfig) (clientWidth : number) :
  is_NaN clientWidth = false ->
  let sizes := calculateThumbnailSizeForVerticalView K c (Some clientWidth) in
  le (width (local sizes)) (filmStripMaxHeight c) = true
  /\ le (width (remote sizes)) (filmStripMaxHeight c) = true
  /\ (le (of_Z 0) (filmStripMaxHeight c) = true ->
      le (of_Z 0) (width (local sizes)) = true
      /\ le (of_Z 0) (width (remote sizes)) = true).
Proof.
  intros Hw sizes.
  destruct (vertical_width K c clientWidth) as [Hlocal Hremote].
  fold sizes in Hlocal, Hremote. rewrite Hremote, Hlocal.
  pose proof (filmStripMaxHeight_not_NaN c) as Hcap.
  pose proof (available_not_NaN K clientWidth Hw) as Havail.
  assert (Hle : le (min (max (sub clientWidth (horizontalMargin K)) (of_Z 0))
                        (filmStripMaxHeight c))
                   (filmStripMaxHeight c) = true) by now apply min_le_r.
  split; [exact Hle | split; [exact Hle |]].
  intros Hpos.
  assert (Hge : le (of_Z 0)
                   (min (max (sub clientWidth (horizontalMargin K)) (of_Z 0))
                        (filmStripMaxHeight c)) = true).
  { apply min_glb; [| assumption].
    apply max_ge_r; [| reflexivity].
    destruct (horizontalMargin_finite K) as [m ->].
    now apply sub_fin_not_NaN. }
  split; exact Hge.
Qed.

Lemma calculateThumbnailSizeForVerticalView_width_bounds_witness :
  le (width (local (calculateThumbnailSizeForVerticalView sample_constants
                      sample_config (Some (of_Z 1000)))))
     (of_Z 120) = true
  /\ le (of_Z 0)
        (width (local (calculateThumbnailSizeForVerticalView sample_constants
                         sample_config (Some (of_Z 1000))))) = true.
Proof.
  split.
  - apply (calculateThumbnailSizeForVerticalView_width_bounds
             sample_constants sample_config (of_Z 1000));
      reflexivity.
  - apply (calculateThumbnailSizeForVerticalView_width_bounds
             sample_constants sample_config (of_Z 1000));
      reflexivity.
Defined.

(** X20: a window no wider than the horizontal margin collapses the
    thumbnails of the vertical view to 0 x 0, provided the cap is not
    negative and both ratios are positive finite numbers. *)
Theorem calculateThumbnailSizeForVerticalView_narrow_window
    (K : Constants) (c : InterfaceConfig) (clientWidth : number) :
  le clientWidth (horizontalMargin K) = true ->
  le (of_Z 0) (filmStripMaxHeight c) = true ->
  positive_finite (to_number (LOCAL_THUMBNAIL_RATIO c)) = true ->
  positive_finite (to_number (REMOTE_THUMBNAIL_RATIO c)) = true ->
  calculateThumbnailSizeForVerticalView K c (Some clientWidth)
  = {| local := {| height := of_Z 0; width := of_Z 0 |};
       remote := {| height := of_Z 0; width := of_Z 0 |} |}.
Proof.
  intros Hnarrow Hcap Hlocal Hremote.
  unfold calculateThumbnailSizeForVerticalView. cbv zeta.
  change (add (add (add (Fin (VERTICAL_FILMSTRIP_MIN_HORIZONTAL_MARGIN K))
                        (Fin (SCROLL_SIZE K)))
                   (Fin (TILE_HORIZONTAL_MARGIN K)))
              (Fin (STAGE_VIEW_THUMBNAIL_HORIZONTAL_BORDER K)))
    with (horizontalMargin K).
  change (or_default (FILM_STRIP_MAX_HEIGHT c) (of_Z 120))
    with (filmStripMaxHeight c).
  assert (Hmax : max (sub clientWidth (horizontalMargin K)) (of_Z 0)
                 = of_Z 0).
  { destruct (horizontalMargin_finite K) as [m Hm]. rewrite Hm in *.
    destruct clientWidth as [x | | |]; cbn in *; try discriminate;
      try reflexivity.
    apply Qle_bool_iff in Hnarrow.
    assert (H : Qle_bool (x + - m) (inject_Z 0) = true)
      by (apply Qle_bool_iff; change (inject_Z 0) with 0; lra).
    now rewrite H. }
  assert (Hmin : min (of_Z 0) (filmStripMaxHeight c) = of_Z 0).
  { destruct (filmStripMaxHeight c) as [q | | |]; cbn in *;
      try discriminate; try reflexivity.
    now rewrite Hcap. }
  rewrite Hmax, Hmin.
  destruct (positive_finite_inv _ Hlocal) as (l & -> & Hl).
  destruct (positive_finite_inv _ Hremote) as (r & -> & Hr).
  assert (Hzero : forall q, 0 < q -> floor (div (of_Z 0) (Fin q)) = of_Z 0).
  { intros q Hq. cbn.
    destruct (Qeq_bool q 0) eqn:E.
    - apply Qeq_bool_eq in E. rewrite E in Hq.
      exfalso. exact (Qlt_irrefl 0 Hq).
    - reflexivity. }
  rewrite (Hzero l Hl), (Hzero r Hr). reflexivity.
Qed.

Lemma calculateThumbnailSizeForVerticalView_narrow_window_witness :
  calculateThumbnailSizeForVerticalView sample_constants sample_config
    (Some (of_Z 20))
  = {| local := {| height := of_Z 0; width := of_Z 0 |};
       remote := {| height := of_Z 0; width := of_Z 0 |} |}.
Proof.
  apply (calculateThumbnailSizeForVerticalView_narrow_window
           sample_constants sample_config (of_Z 20));
    reflexivity.
Defined.

(** X21: the width of the vertical view grows with the client width: a
    wider window never gives narrower thumbnails. *)
Theorem calculateThumbnailSizeForVerticalView_monotone
    (K : Constants) (c : InterfaceConfig) (narrower wider : number) :
  le narrower wider = true ->
  le (width (local (calculateThumbnailSizeForVerticalView K c
                      (Some narrower))))
     (width (local (calculateThumbnailSizeForVerticalView K c
                      (Some wider)))) = true.
Proof.
  intros Hle.
  destruct (vertical_width K c narrower) as [H1 _].
  destruct (vertical_width K c wider) as [H2 _].
  cbv zeta in H1, H2. rewrite H1, H2.
  apply min_le_mono_l; [| apply filmStripMaxHeight_not_NaN].
  apply max_le_mono_l; [| reflexivity].
  destruct (horizontalMargin_finite K) as [m ->].
  now apply sub_le_mono.
Qed.

Lemma calculateThumbnailSizeForVerticalView_monotone_witness :
  le (width (local (calculateThumbnailSizeForVerticalView sample_constants
                      sample_config (Some (of_Z 50)))))
     (width (local (calculateThumbnailSizeForVerticalView sample_constants
                      sample_config (Some (of_Z 90))))) = true.
Proof.
  apply (calculateThumbnailSizeForVerticalView_monotone sample_constants
           sample_config (of_Z 50) (of_Z 90)).
  reflexivity.
Defined.

(** ** Visible area of the vertical filmstrip *)

(** X22: the visible area of the vertical filmstrip is never wider than the
    window and never wider than the cap plus 18 pixels. *)
Theorem getVerticalFilmstripVisibleAreaWidth_bounds
    (c : InterfaceConfig) (innerWidth : number) :
  is_NaN innerWidth = false ->
  le (getVerticalFilmstripVisibleAreaWidth c innerWidth) innerWidth = true
  /\ le (getVerticalFilmstripVisibleAreaWidth c innerWidth)
        (add (filmStripMaxHeight c) (of_Z 18)) = true.
Proof.
  intros Hw. unfold getVerticalFilmstripVisibleAreaWidth. cbv zeta.
  change (or_default (FILM_STRIP_MAX_HEIGHT c) (of_Z 120))
    with (filmStripMaxHeight c).
  assert (Hcap : is_NaN (add (filmStripMaxHeight c) (of_Z 18)) = false)
    by apply add_fin_not_NaN, filmStripMaxHeight_not_NaN.
  split; [now apply min_le_r | now apply min_le_l].
Qed.

Lemma getVerticalFilmstripVisibleAreaWidth_bounds_witness :
  le (getVerticalFilmstripVisibleAreaWidth sample_config (of_Z 100))
     (of_Z 100) = true.
Proof.
  apply (getVerticalFilmstripVisibleAreaWidth_bounds sample_config
           (of_Z 100)).
  reflexivity.
Defined.

(** X23: in a window of non-negative width, and with margin constants whose
    sum is not negative, a thumbnail of the vertical view is never wider than
    the visible area of the vertical filmstrip. *)
Theorem vertical_thumbnail_fits_visible_area
    (K : Constants) (c : InterfaceConfig) (innerWidth : number) :
  le (of_Z 0) innerWidth = true ->
  le (of_Z 0) (horizontalMargin K) = true ->
  le (width (local (calculateThumbnailSizeForVerticalView K c
                      (Some innerWidth))))
     (getVerticalFilmstripVisibleAreaWidth c innerWidth) = true
  /\ le (width (remote (calculateThumbnailSizeForVerticalView K c
                          (Some innerWidth))))
        (getVerticalFilmstripVisibleAreaWidth c innerWidth) = true.
Proof.
  intros Hw Hmargin.
  destruct (vertical_width K c innerWidth) as [Hlocal Hremote].
  cbv zeta in Hlocal, Hremote. rewrite Hremote, Hlocal.
  pose proof (filmStripMaxHeight_not_NaN c) as Hcap.
  pose proof (le_not_NaN_r _ _ Hw) as Hnan.
  pose proof (available_not_NaN K innerWidth Hnan) as Havail.
  assert (Hfit : le (min (max (sub innerWidth (horizontalMargin K)) (of_Z 0))
                         (filmStripMaxHeight c))
                    (getVerticalFilmstripVisibleAreaWidth c innerWidth)
                 = true).
  { unfold getVerticalFilmstripVisibleAreaWidth. cbv zeta.
    change (or_default (FILM_STRIP_MAX_HEIGHT c) (of_Z 120))
      with (filmStripMaxHeight c).
    apply min_glb.
    - apply (le_trans _ (filmStripMaxHeight c)); [now apply min_le_r |].
      apply add_fin_nonneg_le; [assumption |].
      change (inject_Z 18) with 18. lra.
    - apply (le_trans _ (max (sub innerWidth (horizontalMargin K))
                             (of_Z 0)));
        [now apply min_le_l |].
      apply max_lub; [| exact Hw].
      destruct (horizontalMargin_finite K) as [m Hm]. rewrite Hm in *.
      apply sub_fin_nonneg_le; [assumption |].
      cbn in Hmargin. apply Qle_bool_iff in Hmargin. exact Hmargin. }
  split; exact Hfit.
Qed.

Lemma vertical_thumbnail_fits_visible_area_witness :
  le (width (local (calculateThumbnailSizeForVerticalView sample_constants
                      sample_config (Some (of_Z 100)))))
     (getVerticalFilmstripVisibleAreaWidth sample_config (of_Z 100)) = true.
Proof.
  apply (vertical_thumbnail_fits_visible_area sample_constants sample_config
           (of_Z 100));
    reflexivity.
Defined.

(** ** Tile view: the grid fits and the correction only shrinks *)

Lemma finite_not_NaN (a : number) : is_finite a = true -> is_NaN a = false.
Proof. number_cases. Qed.

Lemma mul_le_mono_pos (r a b : number) :
  positive_finite r = true -> le a b = true ->
  le (mul r a) (mul r b) = true.
Proof.
  intros Hr. destruct (positive_finite_inv r Hr) as (q & -> & Hq).
  assert (Hgt : (q ?= 0) = Gt) by now apply Qgt_alt.
  destruct a as [x | | |], b as [y | | |]; cbn; unfold scale_inf;
    rewrite ?Hgt; try discriminate; try reflexivity.
  rewrite !Qle_bool_iff. intros H. nra.
Qed.

Lemma div_le_mono_pos (r a b : number) :
  positive_finite r = true -> le a b = true ->
  le (div a r) (div b r) = true.
Proof.
  intros Hr. destruct (positive_finite_inv r Hr) as (q & -> & Hq).
  assert (Hne : Qeq_bool q 0 = false).
  { destruct (Qeq_bool q 0) eqn:E; [| reflexivity].
    apply Qeq_bool_eq in E. rewrite E in Hq.
    exfalso. exact (Qlt_irrefl 0 Hq). }
  assert (Hnlt : Qlt_bool q 0 = false).
  { unfold Qlt_bool. apply negb_false_iff, Qle_bool_iff. lra. }
  destruct a as [x | | |], b as [y | | |]; cbn; rewrite ?Hne, ?Hnlt; cbn;
    try discriminate; try reflexivity.
  rewrite !Qle_bool_iff. intros H.
  unfold Qdiv. apply Qmult_le_compat_r; [exact H |].
  apply Qlt_le_weak. now apply Qinv_lt_0_compat.
Qed.


Lemma max_cases (a b : number) :
  is_NaN a = false -> is_NaN b = false -> max a b = a \/ max a b = b.
Proof.
  destruct a as [x | | |], b as [y | | |]; cbn; try discriminate; auto.
  intros _ _. destruct (Qle_bool x y); auto.
Qed.

Section TileFit.

Context (K : Constants) (input : LayoutInput).
Hypothesis columns_pos : positive_finite (columns input) = true.
Hypothesis minVisibleRows_pos : positive_finite (minVisibleRows input) = true.
Hypothesis rows_pos : positive_finite (rows input) = true.
Hypothesis clientWidth_fin : is_finite (clientWidth input) = true.
Hypothesis clientHeight_fin : is_finite (clientHeight input) = true.
Hypothesis aspectRatio_pos : positive_finite (tile_aspectRatio K input) = true.
Hypothesis scroll_size_nonneg : 0 <= SCROLL_SIZE K.

Let aspectRatioHeight_fin :=
  tile_aspectRatioHeight_finite K input columns_pos clientWidth_fin
    aspectRatio_pos.
Let initialHeight_fin :=
  tile_initialHeight_finite K input minVisibleRows_pos clientHeight_fin.
Let noScrollHeight_fin :=
  tile_noScrollHeight_finite K input rows_pos clientHeight_fin.
Let scrollInitialWidth_fin :=
  tile_scrollInitialWidth_finite K input columns_pos clientWidth_fin.
Let viewWidth_fin := tile_viewWidth_finite K input columns_pos clientWidth_fin.

(** The width left beside a scrollbar is at most the width without one. *)
Lemma tile_scrollInitialWidth_le :
  le (tile_scrollInitialWidth K input) (tile_initialWidth K input) = true.
Proof.
  apply div_le_mono_pos; [assumption |].
  apply sub_fin_nonneg_le; [| assumption].
  now apply finite_not_NaN.
Qed.

Lemma tile_scroll_min_le :
  le (min (div (tile_scrollInitialWidth K input) (tile_aspectRatio K input))
          (tile_initialHeight K input))
     (min (tile_aspectRatioHeight K input) (tile_initialHeight K input))
  = true.
Proof.
  apply min_le_mono_l; [| now apply finite_not_NaN].
  apply div_le_mono_pos; [assumption | apply tile_scrollInitialWidth_le].
Qed.

Lemma tile_scroll_min_finite :
  is_finite
    (min (div (tile_scrollInitialWidth K input) (tile_aspectRatio K input))
         (tile_initialHeight K input)) = true.
Proof.
  apply min_finite; [| assumption]. now apply div_finite.
Qed.


(** The recomputed height is at most the first one, whenever the first one
    exceeds the height that needs no scroll. *)
Lemma tile_scrollHeight_le_height0 :
  gt (tile_height0 K input) (tile_noScrollHeight K input) = true ->
  le (tile_scrollHeight K input) (tile_height0 K input) = true.
Proof.
  intros Hhigher. unfold tile_scrollHeight.
  destruct (max_cases
              (min (div (tile_scrollInitialWidth K input)
                        (tile_aspectRatio K input))
                   (tile_initialHeight K input))
              (tile_noScrollHeight K input)) as [-> | ->].
  - apply finite_not_NaN, tile_scroll_min_finite.
  - now apply finite_not_NaN.
  - apply floor_mono, tile_scroll_min_le.
  - apply floor_le_of_le. now apply gt_le.
Qed.

(** Whichever branch is taken, the returned size is at most the size first
    computed. *)
Lemma tile_result_le_first :
  let size := calculateThumbnailSizeForTileView K input in
  le (height size) (tile_height0 K input) = true
  /\ le (width size) (tile_width0 K input) = true.
Proof.
  cbv zeta. rewrite calculateThumbnailSizeForTileView_unfold.
  pose proof (tile_height0_finite K input columns_pos minVisibleRows_pos
                clientWidth_fin clientHeight_fin aspectRatio_pos) as Hfin0.
  assert (Hfinw : is_finite (tile_width0 K input) = true).
  { apply floor_finite, mul_finite; [| exact Hfin0].
    now apply positive_is_finite. }
  destruct (gt (tile_height0 K input) (tile_noScrollHeight K input)) eqn:Hh;
    cbn [andb].
  - destruct (gt (tile_width0 K input) (tile_scrollInitialWidth K input));
      cbn [height width].
    + pose proof (tile_scrollHeight_le_height0 Hh) as Hle.
      split; [exact Hle |].
      apply floor_mono. now apply mul_le_mono_pos.
    + split; apply le_refl; now apply finite_not_NaN.
  - cbn [height width]. split; apply le_refl; now apply finite_not_NaN.
Qed.

End TileFit.



(** X25: under the same hypotheses the scroll correction only ever shrinks a
    tile: the returned height and width are at most the ones first computed,
    and when the correction applies the returned height does not go below
    the floor of the height that would need no scroll. *)
Theorem calculateThumbnailSizeForTileView_correction_shrinks
    (K : Constants) (input : LayoutInput) :
  positive_finite (columns input) = true ->
  positive_finite (minVisibleRows input) = true ->
  positive_finite (rows input) = true ->
  is_finite (clientWidth input) = true ->
  is_finite (clientHeight input) = true ->
  positive_finite (tile_aspectRatio K input) = true ->
  0 <= SCROLL_SIZE K ->
  let size := calculateThumbnailSizeForTileView K input in
  le (height size) (tile_height0 K input) = true
  /\ le (width size) (tile_width0 K input) = true
  /\ (gt (tile_height0 K input) (tile_noScrollHeight K input)
      && gt (tile_width0 K input) (tile_scrollInitialWidth K input) = true ->
      le (floor (tile_noScrollHeight K input)) (height size) = true).
Proof.
  intros Hc Hm Hr Hw Hh Ha Hs. cbv zeta.
  destruct (tile_result_le_first K input Hc Hm Hr Hw Hh Ha Hs)
    as [Hheight Hwidth].
  split; [exact Hheight | split; [exact Hwidth |]].
  intros Hscroll. rewrite calculateThumbnailSizeForTileView_unfold, Hscroll.
  cbn [height]. unfold tile_scrollHeight.
  apply floor_mono, max_ge_r.
  - apply finite_not_NaN. now apply tile_scroll_min_finite.
  - apply finite_not_NaN. now apply tile_noScrollHeight_finite.
Qed.

Lemma calculateThumbnailSizeForTileView_correction_shrinks_witness :
  le (height (calculateThumbnailSizeForTileView sample_constants
                layout_scroll))
     (tile_height0 sample_constants layout_scroll) = true
  /\ tile_height0 sample_constants layout_scroll = of_Z 166
  /\ height (calculateThumbnailSizeForTileView sample_constants layout_scroll)
     = of_Z 165.
Proof.
  split; [| split; reflexivity].
  apply (calculateThumbnailSizeForTileView_correction_shrinks
           sample_constants layout_scroll);
    try reflexivity.
  cbn. lra.
Defined.
